(** * The Monk AI: retrieval, reranking and orchestration

    A shallow embedding of the retrieval-and-rerank pipeline of the
    repository (services/vector_store.py, services/llm_service.py,
    services/chat_service.py, services/rag_pipeline.py) together with the
    properties its specification states about it.

    Conventions of the embedding:
    - a Python [str] is the list of its Unicode code points ([pystr]);
      literals of the source are written as Rocq strings and decoded
      from UTF-8 by [u];
    - a Python [float] is a rational number (every finite double is
      one, and the comparisons of finite doubles are those of the
      rationals), an infinity or NaN ([pyfloat]); the comparisons are
      those of Python, all false as soon as NaN is involved;
    - a [dict] with string keys is a [gmap pystr _];
    - calls to external services (vector index, cross-encoder, LLM,
      translator, search tool, transcription, database) are oracles of
      an environment record; a call that raises answers [None];
    - [async] methods are run sequentially, which is what [await] does
      within one request;
    - logging is left out, and so is the failure of removing the
      temporary audio file the request itself was handed. *)

From Stdlib Require Import List String Ascii NArith ZArith QArith Lia.
From Stdlib Require Import Sorted Permutation.
From stdpp Require Import base option list gmap.
Import ListNotations.
Close Scope Q_scope.
Local Open Scope nat_scope.
Local Open Scope list_scope.

(** ** Python strings *)

Module PyStr.

(** A string is the list of its code points. *)
Abbreviation pystr := (list N).

(** Decoding of a well-formed UTF-8 byte sequence into code points. *)
Fixpoint utf8_decode (bs : list N) : pystr :=
  match bs with
  | [] => []
  | b0 :: r0 =>
    if (b0 <? 128)%N then b0 :: utf8_decode r0
    else
      match r0 with
      | [] => []
      | b1 :: r1 =>
        if (b0 <? 224)%N
        then ((b0 - 192) * 64 + (b1 - 128))%N :: utf8_decode r1
        else
          match r1 with
          | [] => []
          | b2 :: r2 =>
            if (b0 <? 240)%N
            then ((b0 - 224) * 4096 + (b1 - 128) * 64 + (b2 - 128))%N
                   :: utf8_decode r2
            else
              match r2 with
              | [] => []
              | b3 :: r3 =>
                ((b0 - 240) * 262144 + (b1 - 128) * 4096
                 + (b2 - 128) * 64 + (b3 - 128))%N :: utf8_decode r3
              end
          end
      end
  end.

(** A source literal. *)
Definition u (s : string) : pystr :=
  utf8_decode (List.map N_of_ascii (list_ascii_of_string s)).

Definition sp : N := 32.   (* ' '  *)
Definition nl : N := 10.   (* '\n' *)
Definition comma : N := 44.

(** [str.isspace] on one character: the code points CPython's
    [_PyUnicode_IsWhitespace] accepts; [strip()] and [split()] without
    argument use it. *)
Definition isspace (c : N) : bool :=
  ((9 <=? c) && (c <=? 13) || (28 <=? c) && (c <=? 32)
   || (c =? 133) || (c =? 160) || (c =? 5760)
   || (8192 <=? c) && (c <=? 8202)
   || (c =? 8232) || (c =? 8233) || (c =? 8239) || (c =? 8287)
   || (c =? 12288))%N.

Fixpoint lstrip (s : pystr) : pystr :=
  match s with
  | [] => []
  | c :: s' => if isspace c then lstrip s' else s
  end.

Definition rstrip (s : pystr) : pystr := rev (lstrip (rev s)).

(** [s.strip()] *)
Definition strip (s : pystr) : pystr := rstrip (lstrip s).

(** Puts [c] in front of the first word of [ws]. *)
Definition cons_head (c : N) (ws : list pystr) : list pystr :=
  match ws with
  | [] => [[c]]
  | w :: ws' => (c :: w) :: ws'
  end.

(** [s.split()]: the maximal runs of non-whitespace characters. *)
Fixpoint split_ws (s : pystr) : list pystr :=
  match s with
  | [] => []
  | c :: s' =>
    if isspace c then split_ws s'
    else
      match s' with
      | [] => [[c]]
      | d :: _ =>
        if isspace d then [c] :: split_ws s' else cons_head c (split_ws s')
      end
  end.

(** [sep.join(l)] *)
Fixpoint join (sep : pystr) (l : list pystr) : pystr :=
  match l with
  | [] => []
  | w :: l' =>
    match l' with
    | [] => w
    | _ :: _ => w ++ sep ++ join sep l'
    end
  end.

(** [s.replace(a, b)] for single characters [a] and [b]. *)
Definition replace (a b : N) (s : pystr) : pystr :=
  List.map (fun c => if (c =? a)%N then b else c) s.

(** The part of [s] before its last [c], when [s] contains [c]. *)
Fixpoint before_last (c : N) (s : pystr) : option pystr :=
  match s with
  | [] => None
  | x :: s' =>
    match before_last c s' with
    | Some p => Some (x :: p)
    | None => if (x =? c)%N then Some [] else None
    end
  end.

(** [s.rsplit(c, 1)[0]] *)
Definition rsplit1_head (c : N) (s : pystr) : pystr :=
  match before_last c s with
  | Some p => p
  | None => s
  end.

(** [s.split(c)] for a single character [c]: never empty. *)
Fixpoint split_on (c : N) (s : pystr) : list pystr :=
  match s with
  | [] => [[]]
  | x :: s' =>
    if (x =? c)%N then [] :: split_on c s'
    else cons_head x (split_on c s')
  end.

Definition pystr_eqb (a b : pystr) : bool := bool_decide (a = b).

End PyStr.
Import PyStr.

(** ** config/config.py *)

Module Config.
Definition TOP_K_RETRIEVAL : nat := 15.
Definition TOP_K_RERANK : nat := 3.
Definition LLM_MODEL : pystr := u "llama-3.3-70b-versatile".
Definition WHISPER_MODEL : pystr := u "whisper-large-v3".
Definition MAX_TOKENS : nat := 2048.
Definition TEMPERATURE : Q := (3 # 10)%Q.
End Config.

(** ** Python floats *)

Inductive pyfloat : Type :=
| NegInf
| Finite (q : Q)
| PosInf
| NaN.

Coercion Finite : Q >-> pyfloat.

Definition is_nan (a : pyfloat) : bool :=
  match a with
  | NaN => true
  | _ => false
  end.

(** [a < b] *)
Definition float_lt (a b : pyfloat) : bool :=
  match a, b with
  | NaN, _ | _, NaN => false
  | _, NegInf => false
  | NegInf, _ => true
  | PosInf, _ => false
  | Finite _, PosInf => true
  | Finite x, Finite y => negb (Qle_bool y x)
  end.

(** [a == b] *)
Definition float_eq (a b : pyfloat) : bool :=
  match a, b with
  | NegInf, NegInf => true
  | PosInf, PosInf => true
  | Finite x, Finite y => Qeq_bool x y
  | _, _ => false
  end.

(** [a <= b] *)
Definition float_le (a b : pyfloat) : bool := float_lt a b || float_eq a b.

(** ** Data model *)

(** A langchain [Document]. *)
Record Document : Type := mkDocument {
  page_content : pystr;
  doc_metadata : gmap pystr pystr
}.

(** An item of the list [rerank_documents] returns: the dict with keys
    'content', 'metadata', 'score' and 'rank'. *)
Record ranked : Type := mkRanked {
  content : pystr;
  metadata : gmap pystr pystr;
  score : pyfloat;
  rank : nat
}.

(** An item of the list [extract_citations] returns. *)
Record citation : Type := mkCitation {
  cit_book : pystr;
  cit_chapter : pystr;
  cit_section : pystr;
  cit_verse : pystr;
  cit_content_preview : pystr
}.

(** An item of the lists the search tool answers with. *)
Record search_result : Type := mkSearchResult {
  sr_query : option pystr;
  sr_snippets : list pystr
}.

(** models/database.py *)
Record QueryRequest : Type := mkQueryRequest {
  qr_query : pystr;
  qr_mode : pystr;
  qr_session_id : option pystr
}.

Record QueryResponse : Type := mkQueryResponse {
  answer : pystr;
  hindi_translation : pystr;
  citations : list citation;
  recommendations : list pystr;
  keywords_explained : option (gmap pystr pystr);
  session_id : pystr
}.

Record ChatMessage : Type := mkChatMessage {
  cm_role : pystr;
  cm_content : pystr;
  cm_mode : pystr;
  cm_citations : list citation;
  cm_hindi_translation : option pystr
}.

(** What [generate_response] returns: the dict with keys 'response',
    'citations', 'recommendations' and 'keywords_explained'. *)
Record llm_response : Type := mkLlmResponse {
  lr_response : pystr;
  lr_citations : list citation;
  lr_recommendations : list pystr;
  lr_keywords_explained : option (gmap pystr pystr)
}.

(** ** Effects *)

(** Calls that leave the process, in the order they are made. *)
Inductive event : Type :=
| EvOpenVectorstore
| EvSimilaritySearch (query : pystr) (k : nat)
| EvRerankerPredict (pairs : list (pystr * pystr))
| EvChatCompletion (model : pystr) (messages : list (pystr * pystr))
| EvGoogleSearch (queries : list pystr)
| EvTranslate (text : pystr)
| EvTranscribe (path : pystr)
| EvCreateSession (user_id title : pystr)
| EvAddMessage (sid user_id : pystr) (message : ChatMessage)
| EvRemoveFile (path : pystr).

Inductive exn : Type :=
| ExternalError (call : event)   (* raised inside an external call *)
| AttributeError                 (* a method of [None] *)
| ValidationError.

Inductive result (A : Type) : Type :=
| Returned (a : A)
| Raised (e : exn).
Arguments Returned {A} a.
Arguments Raised {A} e.

(** The mutable fields of the service objects and the calls made so
    far (most recent last). *)
Record state : Type := mkState {
  initialized : bool;       (* RAGPipeline.initialized *)
  vectorstore : bool;       (* VectorStore.vectorstore is not None *)
  trace : list event
}.

Definition M (A : Type) : Type := state -> result A * state.

Definition ret {A} (a : A) : M A := fun s => (Returned a, s).

Definition raise {A} (e : exn) : M A := fun s => (Raised e, s).

Definition bind {A B} (c : M A) (k : A -> M B) : M B :=
  fun s =>
    match c s with
    | (Returned a, s') => k a s'
    | (Raised e, s') => (Raised e, s')
    end.

Notation "'let*' x ':=' c 'in' k" := (bind c (fun x => k))
  (at level 10, x name, c at level 100, k at level 200).

(** [try: body except Exception as e: handler] *)
Definition try_except {A} (body : M A) (handler : exn -> M A) : M A :=
  fun s =>
    match body s with
    | (Returned a, s') => (Returned a, s')
    | (Raised e, s') => handler e s'
    end.

(** [try: body finally: cleanup] *)
Definition try_finally {A} (body : M A) (cleanup : M unit) : M A :=
  fun s =>
    match body s with
    | (r, s') =>
      match cleanup s' with
      | (Returned _, s'') => (r, s'')
      | (Raised e, s'') => (Raised e, s'')
      end
    end.

Definition emit (ev : event) : M unit :=
  fun s => (Returned tt,
            mkState (initialized s) (vectorstore s) (trace s ++ [ev])).

(** An external call: recorded, and raising when the oracle has no
    answer. *)
Definition call {A} (ev : event) (answer : option A) : M A :=
  let* _ := emit ev in
  match answer with
  | Some a => ret a
  | None => raise (ExternalError ev)
  end.

Definition get_initialized : M bool := fun s => (Returned (initialized s), s).
Definition get_vectorstore : M bool := fun s => (Returned (vectorstore s), s).
Definition set_initialized (b : bool) : M unit :=
  fun s => (Returned tt, mkState b (vectorstore s) (trace s)).
Definition set_vectorstore (b : bool) : M unit :=
  fun s => (Returned tt, mkState (initialized s) b (trace s)).

(** The world outside the process, and the interpreter behaviours the
    code relies on without fixing them: the order in which a [set] is
    iterated, the Unicode case mappings, and the places at which
    [sorted] puts the items of a list whose keys, given in the order of
    the list, include NaN (see [VectorStore.sorted_by_score_desc]). *)
Record env : Type := mkEnv {
  chroma_open : option unit;
  index_search : pystr -> nat -> option (list Document);
  reranker_predict : list (pystr * pystr) -> option (list pyfloat);
  chat_completion : pystr -> list (pystr * pystr) -> option pystr;
  google_search :
    option (list pystr -> option (list (list search_result)));
  translator : pystr -> option pystr;
  whisper : pystr -> option pystr;
  db_insert_session : pystr -> pystr -> option pystr;
  db_push_message : pystr -> pystr -> ChatMessage -> option bool;
  path_exists : pystr -> bool;
  list_of_set : list pystr -> list pystr;
  str_lower : pystr -> pystr;
  str_title : pystr -> pystr;
  nan_order : list pyfloat -> list nat
}.

(** What Python guarantees of [list(set(xs))]: the elements of [xs],
    each once, in an order the language leaves open. *)
Definition set_iteration (f : list pystr -> list pystr) : Prop :=
  forall xs, NoDup (f xs) /\ forall x, In x (f xs) <-> In x xs.

(** ** services/vector_store.py *)

Module VectorStore.

(** Where [x] goes in a list already in descending order of score, [x]
    having stood before all of its items: in front of the first item
    whose score is not above its own. *)
Fixpoint insert_desc (x : ranked) (l : list ranked) : list ranked :=
  match l with
  | [] => [x]
  | y :: l' =>
    if float_lt (score x) (score y) then y :: insert_desc x l' else x :: l
  end.

(** The stable sort by descending score. *)
Definition stable_sorted_desc (results : list ranked) : list ranked :=
  fold_right insert_desc [] results.

(** Puts [x] at position [p] of [l], at its end when [p] is beyond it. *)
Definition place (p : nat) (x : ranked) (l : list ranked) : list ranked :=
  firstn p l ++ x :: skipn p l.

(** The items of [l] put one after the other, from the last to the
    first, at the positions [places] gives for them: any rearrangement
    of [l] is obtained this way, and [l] itself with no places. *)
Fixpoint arrange (places : list nat) (l : list ranked) : list ranked :=
  match l with
  | [] => []
  | x :: l' =>
    match places with
    | [] => x :: arrange [] l'
    | p :: places' => place p x (arrange places' l')
    end
  end.

(** [sorted(results, key=lambda x: x['score'], reverse=True)].  The sort
    compares the keys with [<] only and is stable, also in reverse.
    When no key is NaN, [<] orders the keys and the result is the
    stable sort by descending score.  With NaN among the keys the
    comparisons are inconsistent and the result is a rearrangement of
    the list that depends on the keys and on the sorting algorithm of
    the interpreter; [order] stands for that algorithm. *)
Definition sorted_by_score_desc (order : list pyfloat -> list nat)
    (results : list ranked) : list ranked :=
  if existsb (fun x => is_nan (score x)) results
  then arrange (order (List.map score results)) results
  else stable_sorted_desc results.

(** [{... 'rank': i + 1} for i, (doc, score) in enumerate(zip(documents, scores))],
    the enumeration starting at [i]. *)
Fixpoint scored_from (i : nat) (documents : list Document)
    (scores : list pyfloat) : list ranked :=
  match documents, scores with
  | doc :: documents', s :: scores' =>
    mkRanked (page_content doc) (doc_metadata doc) s (i + 1)
      :: scored_from (S i) documents' scores'
  | _, _ => []
  end.

(** [{... 'score': 0.5, 'rank': i + 1} for i, doc in enumerate(documents)],
    the enumeration starting at [i]. *)
Fixpoint neutral_from (i : nat) (documents : list Document) : list ranked :=
  match documents with
  | [] => []
  | doc :: documents' =>
    mkRanked (page_content doc) (doc_metadata doc) (1 # 2)%Q (i + 1)
      :: neutral_from (S i) documents'
  end.

Section WithEnv.
Context (E : env).

(** [VectorStore.initialize_vectorstore]: a failure is logged, not
    raised, and leaves [vectorstore] as it was. *)
Definition initialize_vectorstore : M unit :=
  try_except
    (let* _ := call EvOpenVectorstore (chroma_open E) in
     set_vectorstore true)
    (fun _ => ret tt).

(** [VectorStore.similarity_search] *)
Definition similarity_search (query : pystr) (k : nat) : M (list Document) :=
  try_except
    (let* vs := get_vectorstore in
     let* _ := if vs then ret tt else initialize_vectorstore in
     let* vs := get_vectorstore in
     if vs
     then call (EvSimilaritySearch query k) (index_search E query k)
     else raise AttributeError)
    (fun e => raise e).

(** [VectorStore.rerank_documents] *)
Definition rerank_documents (query : pystr) (documents : list Document)
    (top_k : nat) : M (list ranked) :=
  try_except
    (match documents with
     | [] => ret []
     | _ :: _ =>
       let pairs := List.map (fun doc => (query, page_content doc)) documents in
       let* scores := call (EvRerankerPredict pairs) (reranker_predict E pairs) in
       let results := scored_from 0 documents scores in
       let results := sorted_by_score_desc (nan_order E) results in
       ret (firstn top_k results)
     end)
    (fun _ => ret (neutral_from 0 (firstn top_k documents))).

(** [VectorStore.search_and_rerank] *)
Definition search_and_rerank (query : pystr) : M (list ranked) :=
  try_except
    (let* initial_results := similarity_search query Config.TOP_K_RETRIEVAL in
     rerank_documents query initial_results Config.TOP_K_RERANK)
    (fun e => raise e).

End WithEnv.
End VectorStore.

(** ** services/llm_service.py *)

Module LLMService.

Definition dq : N := 34.   (* the double quote *)

(** [d.get(key, default)] *)
Definition dict_get (d : gmap pystr pystr) (key default : pystr) : pystr :=
  match d !! key with
  | Some v => v
  | None => default
  end.

(** Truth value of [d.get(key)] together with the value. *)
Definition dict_get_truthy (d : gmap pystr pystr) (key : pystr)
  : option pystr :=
  match d !! key with
  | Some (c :: v) => Some (c :: v)
  | _ => None
  end.

Fixpoint startswith (s pre : pystr) : bool :=
  match pre, s with
  | [], _ => true
  | _ :: _, [] => false
  | x :: pre', y :: s' => (x =? y)%N && startswith s' pre'
  end.

(** [needle in hay] *)
Fixpoint contains (needle hay : pystr) : bool :=
  startswith hay needle
  || match hay with
     | [] => false
     | _ :: hay' => contains needle hay'
     end.

(** The name a context document contributes to the recommendations:
    [doc['metadata'].get('book_name')] under the guard
    [doc.get('metadata') and doc['metadata'].get('book_name')]. *)
Definition book_of (doc : ranked) : option pystr :=
  if bool_decide (metadata doc = ∅) then None
  else dict_get_truthy (metadata doc) (u "book_name").

(** The generator expression of [get_book_recommendations]. *)
Definition book_names (context_docs : list ranked) : list pystr :=
  omap book_of context_docs.

(** [f"Source: {book} - {chapter} {section}\nContent: {content}"] *)
Definition source_block (doc : ranked) : pystr :=
  u "Source: " ++ dict_get (metadata doc) (u "book_name") (u "Unknown")
  ++ u " - " ++ dict_get (metadata doc) (u "chapter") []
  ++ u " " ++ dict_get (metadata doc) (u "section") []
  ++ [nl] ++ u "Content: " ++ content doc.

Definition beginner_prompt (context_text query : pystr) : pystr :=
  join [nl]
    [ u "You are The Monk AI, a helpful guide to Hindu philosophy for beginners.";
      u "Use the following context from Hindu scriptures to answer the user's question.";
      u "Your answer must be clear, simple, and directly based on the provided context.";
      u "Explain any complex spiritual terms for a beginner.";
      u "Always cite the sources you used from the context.";
      u "Context from Hindu scriptures:";
      u "---";
      context_text;
      u "---";
      u "User Question: " ++ query;
      u "Please provide a clear, direct answer. Be concise and educational for someone new to these concepts." ].

Definition expert_prompt (context_text query : pystr) : pystr :=
  join [nl]
    [ u "You are The Monk AI, an advanced scholarly assistant for Hindu philosophy.";
      u "Use the provided context from Hindu scriptures to give a detailed and nuanced answer to the user's question.";
      u "Your analysis should be in-depth, referencing multiple sources from the context where applicable and discussing philosophical perspectives.";
      u "Use appropriate Sanskrit terminology.";
      u "Always cite the specific sources used from the context.";
      u "Context from Hindu scriptures:";
      u "---";
      context_text;
      u "---";
      u "User Question: " ++ query;
      u "Provide a comprehensive and scholarly response based on the context." ].

(** [LLMService.create_prompt]: it has no [raise] and no call that can
    fail on the dicts [rerank_documents] builds, so it returns. *)
Definition create_prompt (query : pystr) (context_docs : list ranked)
    (mode : pystr) : result pystr :=
  let context_text := join [nl; nl] (List.map source_block context_docs) in
  if pystr_eqb mode (u "beginner")
  then Returned (beginner_prompt context_text query)
  else Returned (expert_prompt context_text query).

(** [LLMService.extract_citations] *)
Definition extract_citations (context_docs : list ranked) : list citation :=
  List.map
    (fun doc =>
       mkCitation
         (dict_get (metadata doc) (u "book_name") (u "Unknown Source"))
         (dict_get (metadata doc) (u "chapter") [])
         (dict_get (metadata doc) (u "section") [])
         (dict_get (metadata doc) (u "verse_number") [])
         (firstn 100 (content doc) ++ u "..."))
    context_docs.

Definition keywords_prompt (text : pystr) : pystr :=
  u "From the following text, identify a maximum of 3 key spiritual or Sanskrit terms that a beginner might not understand. List only the terms, separated by commas."
  ++ [nl; nl] ++ u "Text: " ++ [dq] ++ text ++ [dq]
  ++ [nl; nl] ++ u "Terms:".

(** [[kw.strip() for kw in keywords_str.split(',') if kw.strip()]] *)
Definition parse_keywords (keywords_str : pystr) : list pystr :=
  List.map strip
    (List.filter (fun kw => match strip kw with [] => false | _ :: _ => true end)
       (split_on comma keywords_str)).

(** [[f"what is the meaning of {kw} in hinduism" for kw in keywords]] *)
Definition search_queries_of (keywords : list pystr) : list pystr :=
  List.map (fun kw => u "what is the meaning of " ++ kw ++ u " in hinduism")
    keywords.

Definition system_message : pystr :=
  u "You are The Monk AI, an expert in Hindu philosophy. Provide accurate, respectful, and well-cited responses based on the context given.".

Definition translation_unavailable : pystr := u "अनुवाद अनुपलब्ध है".

Section WithEnv.
Context (E : env).

(** [LLMService.get_book_recommendations] *)
Definition get_book_recommendations (context_docs : list ranked)
  : list pystr :=
  match context_docs with
  | [] => []
  | _ :: _ =>
    let source_books := list_of_set E (book_names context_docs) in
    firstn 3 source_books
  end.

(** One turn of the loop over [keywords]. *)
Definition explain_keyword (search_results : list search_result)
    (explanations : gmap pystr pystr) (keyword : pystr)
  : gmap pystr pystr :=
  let result_for_keyword :=
    List.find
      (fun res =>
         contains (str_lower E keyword)
           (str_lower E (match sr_query res with Some q => q | None => [] end)))
      search_results in
  match result_for_keyword with
  | Some (mkSearchResult _ (definition :: _)) =>
    <[str_title E keyword := definition]> explanations
  | _ => <[str_title E keyword := u "Meaning not found."]> explanations
  end.

(** [LLMService.identify_and_explain_keywords] *)
Definition identify_and_explain_keywords (text : pystr)
  : M (gmap pystr pystr) :=
  let explanations : gmap pystr pystr := ∅ in
  match google_search E with
  | None => ret explanations
  | Some search =>
    try_except
      (let prompt := keywords_prompt text in
       let messages := [(u "user", prompt)] in
       let* response :=
         call (EvChatCompletion (u "llama3-8b-8192") messages)
              (chat_completion E (u "llama3-8b-8192") messages) in
       let keywords_str := strip response in
       let keywords := parse_keywords keywords_str in
       match keywords with
       | [] => ret ∅
       | _ :: _ =>
         let search_queries := search_queries_of keywords in
         let* search_results_list :=
           call (EvGoogleSearch search_queries) (search search_queries) in
         let search_results := List.concat search_results_list in
         ret (fold_left (explain_keyword search_results) keywords explanations)
       end)
      (fun _ => ret ∅)
  end.

(** [LLMService.generate_response] *)
Definition generate_response (query : pystr) (context_docs : list ranked)
    (mode : pystr) : M llm_response :=
  try_except
    (let* prompt := (fun s => (create_prompt query context_docs mode, s)) in
     let messages := [(u "system", system_message); (u "user", prompt)] in
     let* response_text :=
       call (EvChatCompletion Config.LLM_MODEL messages)
            (chat_completion E Config.LLM_MODEL messages) in
     let citations := extract_citations context_docs in
     let recommendations := get_book_recommendations context_docs in
     let* keywords_explained :=
       if pystr_eqb mode (u "beginner")
       then let* kws := identify_and_explain_keywords response_text in
            ret (Some kws)
       else ret None in
     ret (mkLlmResponse response_text citations recommendations
            keywords_explained))
    (fun e => raise e).

(** [LLMService.translate_to_hindi] *)
Definition translate_to_hindi (text : pystr) : M pystr :=
  try_except
    (match strip text with
     | [] => ret []
     | _ :: _ => call (EvTranslate text) (translator E text)
     end)
    (fun _ => ret translation_unavailable).

(** [LLMService.transcribe_audio] *)
Definition transcribe_audio (audio_file_path : pystr) : M pystr :=
  try_except
    (call (EvTranscribe audio_file_path) (whisper E audio_file_path))
    (fun e => raise e).

End WithEnv.
End LLMService.

(** ** services/chat_service.py *)

Module ChatService.

(** [ChatService.generate_session_title] *)
Definition generate_session_title (first_message : pystr) : pystr :=
  let title := strip first_message in
  let title :=
    if 50 <? length title
    then rsplit1_head sp (firstn 50 title) ++ u "..."
    else title in
  let title := join (u " ") (split_ws (replace nl sp title)) in
  match title with
  | [] => u "New Chat"
  | _ :: _ => title
  end.

Section WithEnv.
Context (E : env).

(** [ChatService.create_chat_session]; the value is [str(session.id)]. *)
Definition create_chat_session (user_id title : pystr) : M pystr :=
  try_except
    (call (EvCreateSession user_id title) (db_insert_session E user_id title))
    (fun e => raise e).

(** [ChatService.add_message_to_session] *)
Definition add_message_to_session (sid user_id : pystr)
    (message : ChatMessage) : M bool :=
  try_except
    (call (EvAddMessage sid user_id message)
          (db_push_message E sid user_id message))
    (fun _ => ret false).

End WithEnv.
End ChatService.

(** ** services/rag_pipeline.py *)

Module RAGPipeline.

Definition fallback_answer : pystr :=
  u "I could not find relevant information in the scriptures to answer your question.".

Definition clarification_en : pystr :=
  u "I couldn't understand what you said. Could you please speak clearly?".

Definition clarification_hi : pystr :=
  u "मुझे समझ नहीं आया कि आपने क्या कहा। क्या आप कृपया स्पष्ट रूप से बोल सकते हैं?".

(** [session_id or ""] *)
Definition or_empty (sid : option pystr) : pystr :=
  match sid with
  | Some s => s
  | None => []
  end.

Section WithEnv.
Context (E : env).

(** [RAGPipeline.initialize] *)
Definition initialize : M unit :=
  let* init := get_initialized in
  if init then ret tt
  else
    let* _ := VectorStore.initialize_vectorstore E in
    set_initialized true.

(** [RAGPipeline.handle_chat_session] *)
Definition handle_chat_session (user_id : pystr) (sid : option pystr)
    (query response mode : pystr) (cits : list citation)
    (hindi : pystr) : M pystr :=
  let* sid :=
    match sid with
    | Some (c :: s) => ret (c :: s)
    | _ =>
      let title := ChatService.generate_session_title query in
      ChatService.create_chat_session E user_id title
    end in
  let user_message := mkChatMessage (u "user") query mode [] None in
  let* _ := ChatService.add_message_to_session E sid user_id user_message in
  let assistant_message :=
    mkChatMessage (u "assistant") response mode cits (Some hindi) in
  let* _ :=
    ChatService.add_message_to_session E sid user_id assistant_message in
  ret sid.

(** [RAGPipeline.process_query] *)
Definition process_query (query_request : QueryRequest) (user_id : pystr)
  : M QueryResponse :=
  try_except
    (let* _ := initialize in
     let* relevant_docs :=
       VectorStore.search_and_rerank E (qr_query query_request) in
     match relevant_docs with
     | [] =>
       let* hindi := LLMService.translate_to_hindi E fallback_answer in
       ret (mkQueryResponse fallback_answer hindi [] [] None
              (or_empty (qr_session_id query_request)))
     | _ :: _ =>
       let* llm_response :=
         LLMService.generate_response E (qr_query query_request)
           relevant_docs (qr_mode query_request) in
       let* hindi :=
         LLMService.translate_to_hindi E (lr_response llm_response) in
       let* sid :=
         handle_chat_session user_id (qr_session_id query_request)
           (qr_query query_request) (lr_response llm_response)
           (qr_mode query_request) (lr_citations llm_response) hindi in
       ret (mkQueryResponse (lr_response llm_response) hindi
              (lr_citations llm_response)
              (lr_recommendations llm_response)
              (lr_keywords_explained llm_response) sid)
     end)
    (fun e => raise e).

(** The [finally] clause of [process_voice_query]. *)
Definition remove_audio_file (audio_file_path : pystr) : M unit :=
  if path_exists E audio_file_path
  then emit (EvRemoveFile audio_file_path)
  else ret tt.

(** [RAGPipeline.process_voice_query] *)
Definition process_voice_query (audio_file_path mode user_id : pystr)
    (sid : option pystr) : M QueryResponse :=
  try_finally
    (let* query_text := LLMService.transcribe_audio E audio_file_path in
     match strip query_text with
     | [] =>
       ret (mkQueryResponse clarification_en clarification_hi [] [] None
              (or_empty sid))
     | _ :: _ =>
       let query_request := mkQueryRequest query_text mode sid in
       process_query query_request user_id
     end)
    (remove_audio_file audio_file_path).

End WithEnv.
End RAGPipeline.

(** ** Concrete worlds, for running the embedding *)

Module Sample.

Definition doc_gita : Document :=
  mkDocument (u "You have a right to action alone.")
    {[ u "book_name" := u "Bhagavad Gita"; u "chapter" := u "2" ]}.

Definition doc_upanishad : Document :=
  mkDocument (u "That thou art.")
    {[ u "book_name" := u "Chandogya Upanishad" ]}.

Definition s0 : state := mkState false false [].

(** A world in which everything answers; the cross-encoder prefers the
    second candidate, a set is iterated in the order of the last
    occurrences of its elements, the case mappings leave a string as it
    is, and [sorted] leaves a list with a NaN key as it is. *)
Definition world : env :=
  {| chroma_open := Some tt;
     index_search := fun _ _ => Some [doc_gita; doc_upanishad];
     reranker_predict :=
       fun _ => Some [Finite (1 # 10); Finite (9 # 10)];
     chat_completion := fun _ _ => Some (u "Karma is action.");
     google_search := None;
     translator := fun _ => Some (u "कर्म");
     whisper := fun _ => Some (u "  ");
     db_insert_session := fun _ _ => Some (u "s1");
     db_push_message := fun _ _ _ => Some true;
     path_exists := fun _ => true;
     list_of_set := remove_dups;
     str_lower := fun s => s;
     str_title := fun s => s;
     nan_order := fun _ => [] |}.

Definition with_reranker (f : list (pystr * pystr) -> option (list pyfloat))
    (E : env) : env :=
  {| chroma_open := chroma_open E; index_search := index_search E;
     reranker_predict := f; chat_completion := chat_completion E;
     google_search := google_search E; translator := translator E;
     whisper := whisper E; db_insert_session := db_insert_session E;
     db_push_message := db_push_message E; path_exists := path_exists E;
     list_of_set := list_of_set E; str_lower := str_lower E;
     str_title := str_title E; nan_order := nan_order E |}.

Definition with_index (f : pystr -> nat -> option (list Document))
    (E : env) : env :=
  {| chroma_open := chroma_open E; index_search := f;
     reranker_predict := reranker_predict E;
     chat_completion := chat_completion E;
     google_search := google_search E; translator := translator E;
     whisper := whisper E; db_insert_session := db_insert_session E;
     db_push_message := db_push_message E; path_exists := path_exists E;
     list_of_set := list_of_set E; str_lower := str_lower E;
     str_title := str_title E; nan_order := nan_order E |}.

Definition with_set_order (f : list pystr -> list pystr) (E : env) : env :=
  {| chroma_open := chroma_open E; index_search := index_search E;
     reranker_predict := reranker_predict E;
     chat_completion := chat_completion E;
     google_search := google_search E; translator := translator E;
     whisper := whisper E; db_insert_session := db_insert_session E;
     db_push_message := db_push_message E; path_exists := path_exists E;
     list_of_set := f; str_lower := str_lower E;
     str_title := str_title E; nan_order := nan_order E |}.

End Sample.

(** The value of a run that returns. *)
Definition value {A} (r : result A * state) : option A :=
  match r with
  | (Returned a, _) => Some a
  | (Raised _, _) => None
  end.

(** ** Vocabulary of the properties *)

(** [x] may stand before [y]: its score is not below that of [y], and
    on equal scores it was retrieved earlier. *)
Definition before (x y : ranked) : Prop :=
  float_le (score y) (score x) = true
  /\ (float_eq (score x) (score y) = true -> rank x < rank y).

(** The scores of a sequence never increase along it. *)
Definition scores_non_increasing (results : list ranked) : Prop :=
  forall i j x y,
    i < j -> results !! i = Some x -> results !! j = Some y ->
    float_le (score y) (score x) = true.

(** The item [x] is the candidate at position [j] of [documents],
    the positions being counted from [i + 1]. *)
Definition stands_at (documents : list Document) (i : nat) (x : ranked)
  : Prop :=
  exists j doc,
    rank x = i + j + 1 /\ documents !! j = Some doc
    /\ content x = page_content doc /\ metadata x = doc_metadata doc.

(** The pairs [rerank_documents] hands to the cross-encoder. *)
Definition rerank_pairs (query : pystr) (documents : list Document)
  : list (pystr * pystr) :=
  List.map (fun doc => (query, page_content doc)) documents.

(** The state once the call [ev] has been made. *)
Definition after_call (ev : event) (s : state) : state :=
  mkState (initialized s) (vectorstore s) (trace s ++ [ev]).

(** The ranks of a sequence increase strictly along it. *)
Definition ranks_increasing (results : list ranked) : Prop :=
  forall i j x y,
    i < j -> results !! i = Some x -> results !! j = Some y ->
    rank x < rank y.

(** The state once [initialize_vectorstore] has run. *)
Definition opened (E : env) (s : state) : state :=
  mkState (initialized s)
    (match chroma_open E with Some _ => true | None => vectorstore s end)
    (trace s ++ [EvOpenVectorstore]).

(** The elements of [xs], each once, in the order of their first
    occurrence. *)
Fixpoint first_seen (xs : list pystr) : list pystr :=
  match xs with
  | [] => []
  | x :: xs' =>
    x :: List.filter (fun y => negb (pystr_eqb y x)) (first_seen xs')
  end.

(** The recommendations as the specification words them: the book names
    of the evidence, deduplicated, in first-seen order, capped at 3. *)
Definition spec_recommendations (context_docs : list ranked) : list pystr :=
  firstn 3 (first_seen (LLMService.book_names context_docs)).

(** An evidence set in which a book name comes twice. *)
Definition evidence_with_repeat : list ranked :=
  [ mkRanked (u "You have a right to action alone.")
      {[ u "book_name" := u "Bhagavad Gita" ]} (9 # 10)%Q 1;
    mkRanked (u "That thou art.")
      {[ u "book_name" := u "Chandogya Upanishad" ]} (7 # 10)%Q 3;
    mkRanked (u "Yoga is skill in action.")
      {[ u "book_name" := u "Bhagavad Gita" ]} (5 # 10)%Q 2 ].

(** [c] is not a whitespace character. *)
Definition nonspace (c : N) : Prop := isspace c = false.

(** A word: a non-empty run of characters that are not whitespace. *)
Definition word (w : pystr) : Prop := w <> [] /\ Forall nonspace w.

(** Two first messages of more than 50 characters. *)
Definition busy_life_message : pystr :=
  u "How should a householder practise karma yoga in a busy daily life?".

Definition padded_message : pystr :=
  u "What is karma?                                        ".

(** ** services/vector_store.py: ingestion *)

Module VectorStoreIngest.

(** [range(0, n, step)] for a positive [step]: it has
    [(n + step - 1) // step] items, the multiples of [step] below [n]. *)
Definition range_step (n step : nat) : list nat :=
  List.map (fun j => j * step) (seq 0 ((n + step - 1) / step)).

Definition batch_size : nat := 100.

(** The slices [documents[i:i + batch_size]] the loop of [add_documents]
    goes through. *)
Definition batches (documents : list Document) : list (list Document) :=
  List.map (fun i => firstn batch_size (skipn i documents))
    (range_step (length documents) batch_size).

Section WithEnv.
Context (E : env).

(** [self.vectorstore.add_documents(batch)], the insertion into the
    collection being whatever [store_add] does. *)
Context (store_add : list Document -> M unit).

(** The [for] loop of [add_documents]: an attribute of [None] is asked
    for when the store is not open. *)
Fixpoint add_batches (bs : list (list Document)) : M unit :=
  match bs with
  | [] => ret tt
  | batch :: bs' =>
    let* vs := get_vectorstore in
    let* _ := if vs then store_add batch else raise AttributeError in
    add_batches bs'
  end.

(** [VectorStore.add_documents] *)
Definition add_documents (documents : list Document) : M unit :=
  try_except
    (let* vs := get_vectorstore in
     let* _ := if vs then ret tt else VectorStore.initialize_vectorstore E in
     add_batches (batches documents))
    (fun e => raise e).

End WithEnv.
End VectorStoreIngest.

(** [needle] occurs in [hay] as a contiguous run. *)
Definition occurs_in (needle hay : pystr) : Prop :=
  exists l r, hay = l ++ needle ++ r.

(** ** More concrete worlds *)

Module Sample2.

(** A world whose vector store cannot be opened. *)
Definition closed_world : env :=
  {| chroma_open := None;
     index_search := index_search Sample.world;
     reranker_predict := reranker_predict Sample.world;
     chat_completion := chat_completion Sample.world;
     google_search := google_search Sample.world;
     translator := translator Sample.world;
     whisper := whisper Sample.world;
     db_insert_session := db_insert_session Sample.world;
     db_push_message := db_push_message Sample.world;
     path_exists := path_exists Sample.world;
     list_of_set := list_of_set Sample.world;
     str_lower := str_lower Sample.world;
     str_title := str_title Sample.world;
     nan_order := nan_order Sample.world |}.

(** A collection that takes full batches only. *)
Definition full_batches_only (batch : list Document) : M unit :=
  if length batch <? 100 then raise AttributeError else ret tt.

(** 150 documents: a batch of 100 and a batch of 50. *)
Definition corpus : list Document := repeat (mkDocument (u "om") ∅) 150.

Definition ready : state := mkState true true [].

(** The search tool of [searching_world]: one result per query, with
    one snippet. *)
Definition one_snippet_search (queries : list pystr)
  : option (list (list search_result)) :=
  Some [List.map (fun q => mkSearchResult (Some q) [u "A key idea."])
          queries].

(** A world with a search tool, whose model lists two terms. *)
Definition searching_world : env :=
  {| chroma_open := chroma_open Sample.world;
     index_search := index_search Sample.world;
     reranker_predict := reranker_predict Sample.world;
     chat_completion := fun _ _ => Some (u " karma, dharma ");
     google_search := Some one_snippet_search;
     translator := translator Sample.world;
     whisper := whisper Sample.world;
     db_insert_session := db_insert_session Sample.world;
     db_push_message := db_push_message Sample.world;
     path_exists := path_exists Sample.world;
     list_of_set := list_of_set Sample.world;
     str_lower := str_lower Sample.world;
     str_title := str_title Sample.world;
     nan_order := nan_order Sample.world |}.

Definition doc_yoga : Document :=
  mkDocument (u "Yoga is skill in action.")
    {[ u "book_name" := u "Bhagavad Gita" ]}.

Definition doc_atman : Document :=
  mkDocument (u "The self is never born.")
    {[ u "book_name" := u "Katha Upanishad" ]}.

(** A world of four candidates, the second of which the cross-encoder
    scores NaN. *)
Definition nan_world : env :=
  Sample.with_reranker
    (fun _ => Some [Finite (1 # 4); NaN; Finite (3 # 4); Finite (1 # 2)])
    (Sample.with_index
       (fun _ _ =>
          Some [Sample.doc_gita; Sample.doc_upanishad; doc_yoga; doc_atman])
       Sample.world).

(** A world whose LLM is down. *)
Definition silent_llm_world : env :=
  {| chroma_open := chroma_open Sample.world;
     index_search := index_search Sample.world;
     reranker_predict := reranker_predict Sample.world;
     chat_completion := fun _ _ => None;
     google_search := google_search Sample.world;
     translator := translator Sample.world;
     whisper := whisper Sample.world;
     db_insert_session := db_insert_session Sample.world;
     db_push_message := db_push_message Sample.world;
     path_exists := path_exists Sample.world;
     list_of_set := list_of_set Sample.world;
     str_lower := str_lower Sample.world;
     str_title := str_title Sample.world;
     nan_order := nan_order Sample.world |}.

(** A world whose transcription hears a question; its index is empty. *)
Definition hearing_world : env :=
  {| chroma_open := chroma_open Sample.world;
     index_search := fun _ _ => Some [];
     reranker_predict := reranker_predict Sample.world;
     chat_completion := chat_completion Sample.world;
     google_search := google_search Sample.world;
     translator := translator Sample.world;
     whisper := fun _ => Some (u "What is karma?");
     db_insert_session := db_insert_session Sample.world;
     db_push_message := db_push_message Sample.world;
     path_exists := path_exists Sample.world;
     list_of_set := list_of_set Sample.world;
     str_lower := str_lower Sample.world;
     str_title := str_title Sample.world;
     nan_order := nan_order Sample.world |}.

End Sample2.

(** * Properties *)

(** ** Running the monad *)

Lemma run_call_some {A} (ev : event) (a : A) (s : state) :
  call ev (Some a) s
  = (Returned a, mkState (initialized s) (vectorstore s) (trace s ++ [ev])).
Proof. reflexivity. Qed.

Lemma run_call_none {A} (ev : event) (s : state) :
  call ev (@None A) s
  = (Raised (ExternalError ev),
     mkState (initialized s) (vectorstore s) (trace s ++ [ev])).
Proof. reflexivity. Qed.

(** ** The reranking order *)

Lemma float_lt_not_nan a b : float_lt a b = true -> a <> NaN /\ b <> NaN.
Proof. destruct a, b; simpl; intros H; split; congruence. Qed.

Lemma float_le_total a b :
  a <> NaN -> b <> NaN -> float_lt a b = false -> float_le b a = true.
Proof.
  unfold float_le. destruct a, b; simpl; intros Ha Hb H; try congruence.
  apply negb_false_iff, Qle_bool_iff in H.
  destruct (Qle_bool q q0) eqn:Hle; [|reflexivity]. simpl.
  apply Qle_bool_iff in Hle. apply Qeq_bool_iff.
  apply Qle_antisym; assumption.
Qed.

Lemma float_lt_le a b : float_lt a b = true -> float_le a b = true.
Proof. unfold float_le. intros ->. reflexivity. Qed.

Lemma float_lt_not_eq a b : float_lt a b = true -> float_eq b a = false.
Proof.
  destruct a, b; simpl; intros H; try congruence.
  apply negb_true_iff in H. destruct (Qeq_bool q0 q) eqn:Heq; [|reflexivity].
  apply Qeq_bool_iff in Heq.
  assert (Hle : Qle_bool q0 q = true).
  { apply Qle_bool_iff. rewrite Heq. apply Qle_refl. }
  congruence.
Qed.

Lemma float_le_spec a b :
  float_le a b = true <->
  match a, b with
  | NaN, _ | _, NaN => False
  | NegInf, _ => True
  | _, PosInf => True
  | Finite x, Finite y => (x <= y)%Q
  | _, _ => False
  end.
Proof.
  unfold float_le. destruct a, b; simpl;
    try (split; intros;
         (reflexivity || exact I || discriminate || contradiction)).
  rewrite orb_true_iff, negb_true_iff, Qeq_bool_iff. split.
  - intros [H | H]; [|rewrite H; apply Qle_refl].
    apply Qlt_le_weak, Qnot_le_lt. intros Hle.
    apply Qle_bool_iff in Hle. congruence.
  - intros Hle. destruct (Qle_bool q0 q) eqn:H; [|auto].
    right. apply Qle_bool_iff in H. apply Qle_antisym; assumption.
Qed.

Lemma float_le_trans a b c :
  float_le a b = true -> float_le b c = true -> float_le a c = true.
Proof.
  rewrite !float_le_spec.
  destruct a, b, c; try tauto. apply Qle_trans.
Qed.

Lemma insert_desc_perm x l :
  Permutation (VectorStore.insert_desc x l) (x :: l).
Proof.
  induction l as [|y l IH]; simpl; [reflexivity|].
  destruct (float_lt (score x) (score y)); [|reflexivity].
  rewrite IH. apply perm_swap.
Qed.

Lemma stable_sorted_desc_perm l :
  Permutation (VectorStore.stable_sorted_desc l) l.
Proof.
  induction l as [|x l IH]; simpl; [reflexivity|].
  rewrite insert_desc_perm. now constructor.
Qed.

Lemma place_perm p x l : Permutation (VectorStore.place p x l) (x :: l).
Proof.
  unfold VectorStore.place. rewrite <- Permutation_middle.
  rewrite firstn_skipn. reflexivity.
Qed.

Lemma arrange_perm places l : Permutation (VectorStore.arrange places l) l.
Proof.
  revert places. induction l as [|x l IH]; intros places; simpl;
    [reflexivity|].
  destruct places as [|p places].
  - constructor. apply IH.
  - rewrite place_perm. constructor. apply IH.
Qed.

Lemma sorted_by_score_desc_perm order l :
  Permutation (VectorStore.sorted_by_score_desc order l) l.
Proof.
  unfold VectorStore.sorted_by_score_desc.
  destruct (existsb _ l); [apply arrange_perm | apply stable_sorted_desc_perm].
Qed.

Lemma sorted_by_score_desc_stable order l :
  Forall (fun x => score x <> NaN) l ->
  VectorStore.sorted_by_score_desc order l = VectorStore.stable_sorted_desc l.
Proof.
  intros Hl. unfold VectorStore.sorted_by_score_desc.
  destruct (existsb _ l) eqn:Hex; [|reflexivity].
  apply existsb_exists in Hex as (x & Hx & Hnan).
  rewrite Forall_forall in Hl. apply list_elem_of_In in Hx.
  specialize (Hl x Hx). destruct (score x); simpl in Hnan; congruence.
Qed.

Lemma insert_desc_sorted x l :
  StronglySorted before l ->
  Forall (fun y => rank x < rank y) l ->
  score x <> NaN ->
  Forall (fun y => score y <> NaN) l ->
  StronglySorted before (VectorStore.insert_desc x l).
Proof.
  induction 1 as [|y l Hl IH Hy]; intros Hx Hnx Hnl; simpl.
  - repeat constructor.
  - apply Forall_cons_1 in Hx as [Hxy Hxl].
    apply Forall_cons_1 in Hnl as [Hny Hnl].
    destruct (float_lt (score x) (score y)) eqn:Hlt.
    + constructor; [apply IH; assumption|].
      rewrite insert_desc_perm.
      constructor; [|assumption].
      split; [apply float_lt_le; exact Hlt|].
      intros Heq. rewrite (float_lt_not_eq _ _ Hlt) in Heq. discriminate.
    + assert (Hle : float_le (score y) (score x) = true).
      { apply float_le_total; assumption. }
      constructor; [constructor; assumption|].
      constructor; [split; [assumption | intros _; assumption]|].
      rewrite Forall_forall in Hy, Hxl |- *. intros z Hz. split.
      * apply float_le_trans with (score y); [apply (Hy z Hz) | exact Hle].
      * intros _. apply (Hxl z Hz).
Qed.

Lemma scored_from_ranks i documents scores :
  Forall (fun x => i < rank x) (VectorStore.scored_from i documents scores).
Proof.
  revert i scores.
  induction documents as [|d documents IH]; intros i [|s scores]; simpl;
    try constructor.
  - simpl. lia.
  - eapply Forall_impl; [apply IH|]. simpl. intros x Hx. lia.
Qed.

Lemma scored_from_scores i documents scores :
  Forall (fun a => a <> NaN) scores ->
  Forall (fun x => score x <> NaN)
    (VectorStore.scored_from i documents scores).
Proof.
  intros Hs. revert i documents.
  induction Hs as [|a scores Ha Hs IH]; intros i [|d documents]; simpl;
    constructor; [exact Ha | apply IH].
Qed.

Lemma scored_from_sorted i documents scores :
  Forall (fun a => a <> NaN) scores ->
  StronglySorted before
    (VectorStore.stable_sorted_desc
       (VectorStore.scored_from i documents scores)).
Proof.
  intros Hs. revert i documents.
  induction Hs as [|a scores Ha Hs IH]; intros i [|d documents]; simpl;
    try constructor.
  apply insert_desc_sorted; [apply IH | | exact Ha |].
  - rewrite stable_sorted_desc_perm.
    eapply Forall_impl; [apply scored_from_ranks|]. simpl. intros x Hx. lia.
  - rewrite stable_sorted_desc_perm. apply scored_from_scores, Hs.
Qed.

Lemma scored_from_stands i documents scores :
  Forall (stands_at documents i)
    (VectorStore.scored_from i documents scores).
Proof.
  revert i scores.
  induction documents as [|d documents IH]; intros i [|s scores]; simpl;
    try constructor.
  - exists 0, d. simpl. repeat split. lia.
  - eapply Forall_impl; [apply IH|].
    intros x (j & doc & Hr & Hj & Hc & Hm).
    exists (S j), doc. repeat split; try assumption. lia.
Qed.

Lemma neutral_from_lookup i documents j :
  VectorStore.neutral_from i documents !! j
  = (fun doc =>
       mkRanked (page_content doc) (doc_metadata doc) (1 # 2)%Q (i + j + 1))
      <$> documents !! j.
Proof.
  revert i j.
  induction documents as [|d documents IH]; intros i [|j]; simpl;
    try reflexivity.
  - do 2 f_equal. lia.
  - rewrite IH. destruct (documents !! j); simpl; [|reflexivity].
    do 2 f_equal. lia.
Qed.

Lemma neutral_from_length i documents :
  length (VectorStore.neutral_from i documents) = length documents.
Proof.
  revert i. induction documents as [|d documents IH]; intros i; simpl;
    [reflexivity | now rewrite IH].
Qed.

Lemma neutral_from_sorted i documents :
  StronglySorted before (VectorStore.neutral_from i documents).
Proof.
  revert i. induction documents as [|d documents IH]; intros i; simpl;
    constructor; [apply IH|].
  rewrite Forall_forall. intros x Hx.
  apply list_elem_of_lookup in Hx as [j Hj].
  rewrite neutral_from_lookup in Hj.
  destruct (documents !! j); simpl in Hj; [|discriminate].
  injection Hj as <-. split; simpl; [reflexivity | intros _; lia].
Qed.

Lemma neutral_from_stands i documents :
  Forall (stands_at documents i) (VectorStore.neutral_from i documents).
Proof.
  rewrite Forall_forall. intros x Hx.
  apply list_elem_of_lookup in Hx as [j Hj].
  rewrite neutral_from_lookup in Hj.
  destruct (documents !! j) as [doc|] eqn:Hd; simpl in Hj; [|discriminate].
  injection Hj as <-. exists j, doc. repeat split. exact Hd.
Qed.

Lemma stands_at_firstn k documents i x :
  stands_at (firstn k documents) i x -> stands_at documents i x.
Proof.
  intros (j & doc & Hr & Hj & Hc & Hm). exists j, doc.
  repeat split; try assumption.
  apply lookup_take_Some in Hj. apply Hj.
Qed.

Lemma StronglySorted_firstn {A} (R : A -> A -> Prop) k l :
  StronglySorted R l -> StronglySorted R (firstn k l).
Proof.
  intros H. revert k.
  induction H as [|x l Hl IH Hx]; intros [|k]; simpl; try constructor.
  - apply IH.
  - apply Forall_take, Hx.
Qed.

Lemma StronglySorted_lookup {A} (R : A -> A -> Prop) (l : list A) i j x y :
  StronglySorted R l -> i < j -> l !! i = Some x -> l !! j = Some y -> R x y.
Proof.
  intros H. revert i j.
  induction H as [|z l Hl IH Hz]; intros i j Hij Hi Hj; [discriminate|].
  destruct j as [|j]; [lia|]. simpl in Hj.
  destruct i as [|i]; simpl in Hi.
  - injection Hi as <-. rewrite Forall_forall in Hz. apply Hz.
    apply list_elem_of_lookup. eauto.
  - apply (IH i j); [lia | assumption | assumption].
Qed.

Lemma scored_from_NoDup i documents scores :
  NoDup (map rank (VectorStore.scored_from i documents scores)).
Proof.
  revert i scores.
  induction documents as [|d documents IH]; intros i [|s scores]; simpl;
    try constructor; [|apply IH].
  intros Hin. apply list_elem_of_fmap in Hin as (x & Hx & Hin).
  pose proof (scored_from_ranks (S i) documents scores) as Hr.
  rewrite Forall_forall in Hr. specialize (Hr x Hin). simpl in Hx. lia.
Qed.

Lemma neutral_from_NoDup i documents :
  NoDup (map rank (VectorStore.neutral_from i documents)).
Proof.
  apply NoDup_alt. intros a b r Ha Hb.
  rewrite list_lookup_fmap, neutral_from_lookup in Ha, Hb.
  destruct (documents !! a), (documents !! b); simpl in *; try discriminate.
  injection Ha as <-. injection Hb as Hb. lia.
Qed.

(** ** What a run of the reranker yields *)

Lemma rerank_documents_run E query documents top_k s :
  VectorStore.rerank_documents E query documents top_k s
  = match documents with
    | [] => (Returned [], s)
    | _ :: _ =>
      let pairs := rerank_pairs query documents in
      (Returned
         match reranker_predict E pairs with
         | Some scores =>
           firstn top_k
             (VectorStore.sorted_by_score_desc (nan_order E)
                (VectorStore.scored_from 0 documents scores))
         | None => VectorStore.neutral_from 0 (firstn top_k documents)
         end,
       after_call (EvRerankerPredict pairs) s)
    end.
Proof.
  destruct documents as [|d documents]; [reflexivity|].
  unfold VectorStore.rerank_documents, try_except, bind, call, emit, ret,
    raise, rerank_pairs, after_call.
  cbv zeta.
  destruct (reranker_predict E _); reflexivity.
Qed.

Lemma rerank_documents_value E query documents top_k s :
  exists results,
    value (VectorStore.rerank_documents E query documents top_k s)
    = Some results
    /\ length results <= top_k
    /\ Forall (stands_at documents 0) results
    /\ NoDup (map rank results)
    /\ ((forall scores,
            reranker_predict E (rerank_pairs query documents) = Some scores ->
            Forall (fun a => a <> NaN) scores) ->
        StronglySorted before results).
Proof.
  rewrite rerank_documents_run.
  destruct documents as [|d documents].
  { exists []. simpl. repeat split; try constructor. lia. }
  cbv zeta. set (docs := d :: documents).
  destruct (reranker_predict E _) as [scores|]; eexists;
    (split; [reflexivity|]).
  - split; [rewrite length_take; lia|]. split; [|split].
    + apply Forall_take. rewrite sorted_by_score_desc_perm.
      apply scored_from_stands.
    + rewrite <- firstn_map. eapply sublist_NoDup; [|apply sublist_take].
      rewrite sorted_by_score_desc_perm. apply scored_from_NoDup.
    + intros Hscores. specialize (Hscores scores eq_refl).
      rewrite sorted_by_score_desc_stable
        by (apply scored_from_scores, Hscores).
      apply StronglySorted_firstn, scored_from_sorted, Hscores.
  - split; [rewrite neutral_from_length, length_take; lia|]. split; [|split].
    + eapply Forall_impl; [apply neutral_from_stands|].
      intros x. apply stands_at_firstn.
    + apply neutral_from_NoDup.
    + intros _. apply neutral_from_sorted.
Qed.

Lemma value_bind {A B} (c : M A) (k : A -> M B) s b :
  value (bind c k s) = Some b ->
  exists a s', c s = (Returned a, s') /\ value (k a s') = Some b.
Proof.
  unfold bind. destruct (c s) as [[a|e] s']; simpl; [eauto | discriminate].
Qed.

Lemma value_reraise {A} (body : M A) s :
  value (try_except body (fun e => raise e) s) = value (body s).
Proof.
  unfold try_except. destruct (body s) as [[a|e] s']; reflexivity.
Qed.

Lemma run_reraise {A} (body : M A) s :
  try_except body (fun e => raise e) s = body s.
Proof.
  unfold try_except. destruct (body s) as [[a|e] s']; reflexivity.
Qed.

Lemma search_and_rerank_run E query s documents s1 :
  VectorStore.similarity_search E query Config.TOP_K_RETRIEVAL s
  = (Returned documents, s1) ->
  VectorStore.search_and_rerank E query s
  = VectorStore.rerank_documents E query documents Config.TOP_K_RERANK s1.
Proof.
  intros H. unfold VectorStore.search_and_rerank.
  rewrite run_reraise. unfold bind. rewrite H. reflexivity.
Qed.

(** ** Claims on retrieval and reranking *)

(** C2, as stated, fails: a score the cross-encoder returns may be NaN,
    and [sorted] does not order a list with a NaN key.  With the four
    scores 0.25, NaN, 0.75, 0.5, an interpreter that finds the list
    already in order (every comparison with NaN being false) returns the
    candidates as they came, so the three scores returned are 0.25, NaN,
    0.75: the third is above the first.  (Whatever the rearrangement,
    NaN is not below or equal to anything, nor anything to it.) *)
Lemma C2_counterexample :
  (map score <$>
   value (VectorStore.rerank_documents Sample2.nan_world (u "What is karma?")
            [Sample.doc_gita; Sample.doc_upanishad; Sample2.doc_yoga;
             Sample2.doc_atman] Config.TOP_K_RERANK Sample.s0))
  = Some [Finite (1 # 4); NaN; Finite (3 # 4)]
  /\ ~ (forall results,
          value (VectorStore.rerank_documents Sample2.nan_world
                   (u "What is karma?")
                   [Sample.doc_gita; Sample.doc_upanishad; Sample2.doc_yoga;
                    Sample2.doc_atman] Config.TOP_K_RERANK Sample.s0)
          = Some results ->
          scores_non_increasing results).
Proof.
  split; [vm_compute; reflexivity|].
  intros H.
  destruct (value (VectorStore.rerank_documents Sample2.nan_world
                     (u "What is karma?")
                     [Sample.doc_gita; Sample.doc_upanishad;
                      Sample2.doc_yoga; Sample2.doc_atman]
                     Config.TOP_K_RERANK Sample.s0))
    as [results|] eqn:Hv; [|vm_compute in Hv; discriminate].
  specialize (H results eq_refl).
  vm_compute in Hv. injection Hv as <-.
  specialize (H 0 2 _ _ ltac:(lia) eq_refl eq_refl).
  vm_compute in H. discriminate.
Qed.

(** C2, amended. For every query text and every list of retrieved
    documents, [rerank_documents] returns (it never raises) a sequence
    of at most [top_k] items, every one of them made from the candidate
    whose 1-based retrieval position its rank is; provided no score the
    cross-encoder returns is NaN, the relevance scores never increase
    along the sequence, and of two items with equal scores the one
    retrieved earlier comes first.  [search_and_rerank] calls it with
    [Config.TOP_K_RERANK], so whatever it returns has at most
    [TOP_K_RERANK] items, in that same order under the same proviso. *)
Theorem C2_rerank_bounded_sorted_stable (E : env) (query : pystr) :
  (forall (documents : list Document) (top_k : nat) (s : state),
      exists results,
        value (VectorStore.rerank_documents E query documents top_k s)
        = Some results
        /\ length results <= top_k
        /\ Forall (stands_at documents 0) results
        /\ ((forall scores,
                reranker_predict E (rerank_pairs query documents)
                = Some scores ->
                Forall (fun a => a <> NaN) scores) ->
            forall i j x y,
              i < j -> results !! i = Some x -> results !! j = Some y ->
              float_le (score y) (score x) = true
              /\ (float_eq (score x) (score y) = true -> rank x < rank y)))
  /\ (forall (s : state) (results : list ranked),
         value (VectorStore.search_and_rerank E query s) = Some results ->
         length results <= Config.TOP_K_RERANK
         /\ ((forall pairs scores,
                 reranker_predict E pairs = Some scores ->
                 Forall (fun a => a <> NaN) scores) ->
             forall i j x y,
               i < j -> results !! i = Some x -> results !! j = Some y ->
               float_le (score y) (score x) = true
               /\ (float_eq (score x) (score y) = true -> rank x < rank y))).
Proof.
  split.
  - intros documents top_k s.
    destruct (rerank_documents_value E query documents top_k s)
      as (results & Hv & Hlen & Hst & _ & Hsorted).
    exists results. split; [assumption|]. split; [assumption|].
    split; [assumption|]. intros Hscores i j x y Hij Hi Hj.
    apply (StronglySorted_lookup before results i j x y); auto.
  - intros s results Hv.
    unfold VectorStore.search_and_rerank in Hv.
    rewrite value_reraise in Hv.
    apply value_bind in Hv as (documents & s1 & _ & Hv).
    destruct (rerank_documents_value E query documents Config.TOP_K_RERANK s1)
      as (results' & Hv' & Hlen & _ & _ & Hsorted).
    rewrite Hv' in Hv. injection Hv as ->.
    split; [assumption|]. intros Hscores i j x y Hij Hi Hj.
    apply (StronglySorted_lookup before results i j x y); try assumption.
    apply Hsorted. intros scores Hs. exact (Hscores _ scores Hs).
Qed.

(** C3. For every query and non-empty candidate list, if the scoring
    call of the reranker raises, [rerank_documents] still returns: the
    result has as many items as the candidate list truncated to [top_k]
    has, and its item at position [i] is the candidate retrieved at
    position [i], with the neutral score 0.5 and the rank [i + 1]. *)
Theorem C3_reranker_failure_degrades (E : env) (query : pystr)
    (documents : list Document) (top_k : nat) (s : state) :
  documents <> [] ->
  reranker_predict E (rerank_pairs query documents) = None ->
  exists results,
    value (VectorStore.rerank_documents E query documents top_k s)
    = Some results
    /\ length results = Nat.min top_k (length documents)
    /\ forall i x,
         results !! i = Some x ->
         score x = (1 # 2)%Q /\ rank x = i + 1 /\ i < top_k
         /\ exists doc,
              documents !! i = Some doc
              /\ content x = page_content doc
              /\ metadata x = doc_metadata doc.
Proof.
  intros Hne Hfail. rewrite rerank_documents_run.
  destruct documents as [|d documents]; [congruence|].
  cbv zeta. rewrite Hfail. eexists. split; [reflexivity|]. split.
  - rewrite neutral_from_length, length_take. reflexivity.
  - intros i x Hi. rewrite neutral_from_lookup in Hi.
    destruct (firstn top_k (d :: documents) !! i) as [doc|] eqn:Hd;
      simpl in Hi; [|discriminate].
    injection Hi as <-. apply lookup_take_Some in Hd as [Hd Hlt].
    simpl. repeat split; try assumption. exists doc. auto.
Qed.

Lemma C3_witness :
  exists results,
    value (VectorStore.rerank_documents
             (Sample.with_reranker (fun _ => None) Sample.world)
             (u "karma") [Sample.doc_gita; Sample.doc_upanishad] 1 Sample.s0)
    = Some results
    /\ length results = 1
    /\ forall i x,
         results !! i = Some x ->
         score x = (1 # 2)%Q /\ rank x = i + 1 /\ i < 1
         /\ exists doc,
              [Sample.doc_gita; Sample.doc_upanishad] !! i = Some doc
              /\ content x = page_content doc
              /\ metadata x = doc_metadata doc.
Proof.
  apply (C3_reranker_failure_degrades
           (Sample.with_reranker (fun _ => None) Sample.world)
           (u "karma") [Sample.doc_gita; Sample.doc_upanishad] 1 Sample.s0).
  - discriminate.
  - reflexivity.
Defined.

(** C1, as stated, fails: with two candidates of which the cross-encoder
    prefers the second, the returned sequence carries the ranks 2, 1.
    And with a NaN among the scores the sequence need not be in
    descending order of score either: with the scores 0.25, NaN, 0.75,
    0.5 left as they came, the scores returned are 0.25, NaN, 0.75. *)
Lemma C1_counterexample :
  (map rank <$> value (VectorStore.search_and_rerank Sample.world
                         (u "What is karma?") Sample.s0)) = Some [2; 1]
  /\ ~ (forall results,
          value (VectorStore.search_and_rerank Sample.world
                   (u "What is karma?") Sample.s0) = Some results ->
          ranks_increasing results)
  /\ (map score <$> value (VectorStore.search_and_rerank Sample2.nan_world
                             (u "What is karma?") Sample.s0))
     = Some [Finite (1 # 4); NaN; Finite (3 # 4)].
Proof.
  split; [vm_compute; reflexivity|]. split; [|vm_compute; reflexivity].
  intros H.
  destruct (value (VectorStore.search_and_rerank Sample.world
                     (u "What is karma?") Sample.s0)) as [results|] eqn:Hv;
    [|vm_compute in Hv; discriminate].
  specialize (H results eq_refl).
  vm_compute in Hv. injection Hv as <-.
  specialize (H 0 1 _ _ ltac:(lia) eq_refl eq_refl). simpl in H. lia.
Qed.

(** C1, amended. When the vector search returns [documents],
    [search_and_rerank] returns a sequence in which every item carries
    as rank the 1-based position, in [documents], of the candidate it
    was made from; the ranks are pairwise distinct; and provided no
    score the cross-encoder returns is NaN, the sequence is in
    descending order of relevance score, and the ranks increase strictly
    along it among items of equal score. *)
Theorem C1_rank_is_retrieval_position (E : env) (query : pystr) (s s1 : state)
    (documents : list Document) :
  VectorStore.similarity_search E query Config.TOP_K_RETRIEVAL s
  = (Returned documents, s1) ->
  exists results,
    value (VectorStore.search_and_rerank E query s) = Some results
    /\ (forall x, In x results ->
          exists j doc,
            rank x = j + 1 /\ documents !! j = Some doc
            /\ content x = page_content doc /\ metadata x = doc_metadata doc)
    /\ NoDup (map rank results)
    /\ ((forall scores,
            reranker_predict E (rerank_pairs query documents) = Some scores ->
            Forall (fun a => a <> NaN) scores) ->
        forall i j x y,
          i < j -> results !! i = Some x -> results !! j = Some y ->
          float_le (score y) (score x) = true
          /\ (float_eq (score x) (score y) = true -> rank x < rank y)).
Proof.
  intros Hsearch. rewrite (search_and_rerank_run E query s documents s1 Hsearch).
  destruct (rerank_documents_value E query documents Config.TOP_K_RERANK s1)
    as (results & Hv & _ & Hst & Hnd & Hsorted).
  exists results. split; [assumption|]. split; [|split; [assumption|]].
  - intros x Hx. rewrite Forall_forall in Hst.
    apply list_elem_of_In in Hx. exact (Hst x Hx).
  - intros Hscores i j x y Hij Hi Hj.
    apply (StronglySorted_lookup before results i j x y); auto.
Qed.

Lemma C1_witness :
  exists results,
    value (VectorStore.search_and_rerank Sample.world (u "What is karma?")
             Sample.s0) = Some results
    /\ (forall x, In x results ->
          exists j doc,
            rank x = j + 1
            /\ [Sample.doc_gita; Sample.doc_upanishad] !! j = Some doc
            /\ content x = page_content doc /\ metadata x = doc_metadata doc)
    /\ NoDup (map rank results)
    /\ ((forall scores,
            reranker_predict Sample.world
              (rerank_pairs (u "What is karma?")
                 [Sample.doc_gita; Sample.doc_upanishad]) = Some scores ->
            Forall (fun a => a <> NaN) scores) ->
        forall i j x y,
          i < j -> results !! i = Some x -> results !! j = Some y ->
          float_le (score y) (score x) = true
          /\ (float_eq (score x) (score y) = true -> rank x < rank y)).
Proof.
  eapply (C1_rank_is_retrieval_position Sample.world (u "What is karma?")
            Sample.s0).
  vm_compute. reflexivity.
Defined.

(** ** Running the pipeline *)

Lemma initialize_vectorstore_run E s :
  VectorStore.initialize_vectorstore E s = (Returned tt, opened E s).
Proof.
  unfold VectorStore.initialize_vectorstore, try_except, bind, call, emit,
    set_vectorstore, ret, raise, opened.
  destruct (chroma_open E); reflexivity.
Qed.

Lemma initialize_run E s :
  RAGPipeline.initialize E s
  = (Returned tt,
     if initialized s then s
     else mkState true (vectorstore (opened E s)) (trace (opened E s))).
Proof.
  unfold RAGPipeline.initialize, bind, get_initialized.
  destruct (initialized s) eqn:Hi; [reflexivity|].
  rewrite initialize_vectorstore_run. reflexivity.
Qed.

Lemma similarity_search_run E query k s :
  VectorStore.similarity_search E query k s
  = if vectorstore s
    then call (EvSimilaritySearch query k) (index_search E query k) s
    else
      match chroma_open E with
      | Some _ =>
        call (EvSimilaritySearch query k) (index_search E query k)
          (opened E s)
      | None => (Raised AttributeError, opened E s)
      end.
Proof.
  unfold VectorStore.similarity_search. rewrite run_reraise.
  unfold bind at 1. unfold get_vectorstore at 1.
  destruct (vectorstore s) eqn:Hvs.
  - unfold bind, ret, get_vectorstore. rewrite Hvs. reflexivity.
  - unfold bind. rewrite initialize_vectorstore_run.
    unfold get_vectorstore, opened. simpl.
    destruct (chroma_open E); [reflexivity|]. rewrite Hvs. reflexivity.
Qed.

Lemma translate_to_hindi_run E text s :
  LLMService.translate_to_hindi E text s
  = match strip text with
    | [] => (Returned [], s)
    | _ :: _ =>
      (Returned
         match translator E text with
         | Some t => t
         | None => LLMService.translation_unavailable
         end,
       after_call (EvTranslate text) s)
    end.
Proof.
  unfold LLMService.translate_to_hindi, try_except.
  destruct (strip text); [reflexivity|].
  unfold call, bind, emit, ret, raise, after_call.
  destruct (translator E text); reflexivity.
Qed.

Lemma fallback_answer_not_blank :
  exists c r, strip RAGPipeline.fallback_answer = c :: r.
Proof. vm_compute. eauto. Qed.

(** ** Claims on the orchestration *)

(** C4. For every query, if the vector search returns an empty list
    (the index being open or openable), then the rerank step returns
    an empty list without scoring anything, and [process_query] returns
    the fixed fallback answer with empty citations and empty
    recommendations; the only calls it makes are opening the index, the
    vector search and the translation of the fallback answer, so the
    LLM is never invoked. *)
Theorem C4_empty_retrieval_falls_back (E : env) (query_request : QueryRequest)
    (user_id : pystr) (s : state) :
  index_search E (qr_query query_request) Config.TOP_K_RETRIEVAL = Some [] ->
  vectorstore s = true \/ chroma_open E = Some tt ->
  (forall top_k s',
      VectorStore.rerank_documents E (qr_query query_request) [] top_k s'
      = (Returned [], s'))
  /\ exists resp s' new,
       RAGPipeline.process_query E query_request user_id s
       = (Returned resp, s')
       /\ answer resp = RAGPipeline.fallback_answer
       /\ citations resp = []
       /\ recommendations resp = []
       /\ trace s' = trace s ++ new
       /\ forall ev,
            In ev new ->
            ev = EvOpenVectorstore
            \/ ev = EvSimilaritySearch (qr_query query_request)
                      Config.TOP_K_RETRIEVAL
            \/ ev = EvTranslate RAGPipeline.fallback_answer.
Proof.
  intros Hsearch Hopen. split; [reflexivity|].
  unfold RAGPipeline.process_query. rewrite run_reraise.
  unfold bind at 1. rewrite initialize_run.
  set (s2 := if initialized s then s else _).
  assert (Hs2 : exists n,
             trace s2 = trace s ++ repeat EvOpenVectorstore n
             /\ (vectorstore s2 = true \/ chroma_open E = Some tt)).
  { subst s2. destruct (initialized s).
    - exists 0. simpl. rewrite app_nil_r. auto.
    - exists 1. simpl. split; [reflexivity|].
      destruct Hopen as [-> | ->]; [|auto].
      left. destruct (chroma_open E); reflexivity. }
  destruct Hs2 as (n & Htr2 & Hopen2). clearbody s2.
  unfold bind at 1. unfold VectorStore.search_and_rerank.
  rewrite run_reraise. unfold bind at 1.
  rewrite similarity_search_run.
  assert (Hs3 : exists s3 m,
             (if vectorstore s2
              then call (EvSimilaritySearch (qr_query query_request)
                           Config.TOP_K_RETRIEVAL)
                     (index_search E (qr_query query_request)
                        Config.TOP_K_RETRIEVAL) s2
              else
                match chroma_open E with
                | Some _ =>
                  call (EvSimilaritySearch (qr_query query_request)
                          Config.TOP_K_RETRIEVAL)
                    (index_search E (qr_query query_request)
                       Config.TOP_K_RETRIEVAL) (opened E s2)
                | None => (Raised AttributeError, opened E s2)
                end) = (Returned [], s3)
             /\ trace s3
                = trace s ++ repeat EvOpenVectorstore m
                  ++ [EvSimilaritySearch (qr_query query_request)
                        Config.TOP_K_RETRIEVAL]).
  { rewrite Hsearch. destruct (vectorstore s2) eqn:Hvs.
    - eexists _, n. rewrite run_call_some. split; [reflexivity|].
      simpl. rewrite Htr2, <- app_assoc. reflexivity.
    - destruct Hopen2 as [Hc | Hc]; [discriminate|]. rewrite Hc.
      eexists _, (n + 1). rewrite run_call_some. split; [reflexivity|].
      simpl. rewrite Htr2, repeat_app, <- !app_assoc. reflexivity. }
  destruct Hs3 as (s3 & m & Hrun3 & Htr3). rewrite Hrun3.
  rewrite rerank_documents_run. unfold bind.
  rewrite translate_to_hindi_run.
  destruct fallback_answer_not_blank as (c & r & ->).
  eexists _, _, _. split; [reflexivity|]. simpl.
  repeat split.
  - rewrite Htr3, <- !app_assoc. reflexivity.
  - intros ev Hin. apply in_app_or in Hin as [Hin | Hin].
    + apply repeat_spec in Hin. auto.
    + simpl in Hin. destruct Hin as [<- | [<- | []]]; auto.
Qed.

Lemma C4_witness :
  (forall top_k s',
      VectorStore.rerank_documents
        (Sample.with_index (fun _ _ => Some []) Sample.world)
        (u "What is karma?") [] top_k s'
      = (Returned [], s'))
  /\ exists resp s' new,
       RAGPipeline.process_query
         (Sample.with_index (fun _ _ => Some []) Sample.world)
         (mkQueryRequest (u "What is karma?") (u "beginner") None)
         (u "user-1") Sample.s0
       = (Returned resp, s')
       /\ answer resp = RAGPipeline.fallback_answer
       /\ citations resp = []
       /\ recommendations resp = []
       /\ trace s' = trace Sample.s0 ++ new
       /\ forall ev,
            In ev new ->
            ev = EvOpenVectorstore
            \/ ev = EvSimilaritySearch (u "What is karma?")
                      Config.TOP_K_RETRIEVAL
            \/ ev = EvTranslate RAGPipeline.fallback_answer.
Proof.
  apply (C4_empty_retrieval_falls_back
           (Sample.with_index (fun _ _ => Some []) Sample.world)
           (mkQueryRequest (u "What is karma?") (u "beginner") None)
           (u "user-1") Sample.s0).
  - reflexivity.
  - right. reflexivity.
Defined.

Lemma try_except_default {A} (body : M A) (d : A) s :
  exists a s',
    try_except body (fun _ => ret d) s = (Returned a, s')
    /\ forall e s1, body s = (Raised e, s1) -> a = d.
Proof.
  unfold try_except. destruct (body s) as [[a|e] s1].
  - exists a, s1. split; [reflexivity | discriminate].
  - exists d, s1. split; [reflexivity|]. reflexivity.
Qed.

Lemma identify_and_explain_keywords_returns E text s :
  exists m s',
    LLMService.identify_and_explain_keywords E text s = (Returned m, s').
Proof.
  unfold LLMService.identify_and_explain_keywords.
  destruct (google_search E) as [search|]; [|eexists _, _; reflexivity].
  edestruct (try_except_default (A := gmap pystr pystr)) as (a & s' & H & _).
  eexists _, _. exact H.
Qed.

(** C8. For every voice query whose transcription is empty or consists
    of whitespace only, [process_voice_query] returns the fixed
    clarification message, in English and in Hindi, with empty citations
    and recommendations; the only calls it makes are the transcription
    and the removal of the audio file, so neither retrieval nor answer
    generation nor session creation is invoked. *)
Theorem C8_blank_transcription_short_circuits (E : env)
    (audio_file_path mode user_id : pystr) (sid : option pystr) (s : state)
    (query_text : pystr) :
  whisper E audio_file_path = Some query_text ->
  strip query_text = [] ->
  exists s',
    RAGPipeline.process_voice_query E audio_file_path mode user_id sid s
    = (Returned
         (mkQueryResponse RAGPipeline.clarification_en
            RAGPipeline.clarification_hi [] [] None (RAGPipeline.or_empty sid)),
       s')
    /\ trace s'
       = trace s ++ EvTranscribe audio_file_path
           :: (if path_exists E audio_file_path
               then [EvRemoveFile audio_file_path] else []).
Proof.
  intros Hw Hblank.
  unfold RAGPipeline.process_voice_query, try_finally, bind at 1.
  unfold LLMService.transcribe_audio. rewrite run_reraise, Hw, run_call_some.
  rewrite Hblank. unfold ret, RAGPipeline.remove_audio_file.
  destruct (path_exists E audio_file_path); eexists; (split; [reflexivity|]);
    simpl; [rewrite <- app_assoc | ]; reflexivity.
Qed.

Lemma C8_witness :
  exists s',
    RAGPipeline.process_voice_query Sample.world (u "/tmp/a.wav")
      (u "beginner") (u "user-1") None Sample.s0
    = (Returned
         (mkQueryResponse RAGPipeline.clarification_en
            RAGPipeline.clarification_hi [] [] None
            (RAGPipeline.or_empty None)),
       s')
    /\ trace s'
       = trace Sample.s0 ++ EvTranscribe (u "/tmp/a.wav")
           :: (if path_exists Sample.world (u "/tmp/a.wav")
               then [EvRemoveFile (u "/tmp/a.wav")] else []).
Proof.
  apply (C8_blank_transcription_short_circuits Sample.world (u "/tmp/a.wav")
           (u "beginner") (u "user-1") None Sample.s0 (u "  ")).
  - reflexivity.
  - vm_compute. reflexivity.
Defined.

(** C9. For every input text, each enrichment call catches its own
    failure: [identify_and_explain_keywords] always returns, and returns
    the empty mapping when the search tool is not available, when the
    term-extraction call fails, and when the search call fails;
    [translate_to_hindi] always returns, and returns the marker
    'अनुवाद अनुपलब्ध है' when the translation call fails. *)
Theorem C9_enrichment_failures_are_swallowed (E : env) (text : pystr)
    (s : state) :
  (exists m s',
      LLMService.identify_and_explain_keywords E text s = (Returned m, s'))
  /\ (google_search E = None ->
      value (LLMService.identify_and_explain_keywords E text s) = Some ∅)
  /\ (chat_completion E (u "llama3-8b-8192")
        [(u "user", LLMService.keywords_prompt text)] = None ->
      value (LLMService.identify_and_explain_keywords E text s) = Some ∅)
  /\ (forall search response,
         google_search E = Some search ->
         chat_completion E (u "llama3-8b-8192")
           [(u "user", LLMService.keywords_prompt text)] = Some response ->
         search (LLMService.search_queries_of
                   (LLMService.parse_keywords (strip response))) = None ->
         value (LLMService.identify_and_explain_keywords E text s) = Some ∅)
  /\ (exists h s', LLMService.translate_to_hindi E text s = (Returned h, s'))
  /\ (translator E text = None ->
      value (LLMService.translate_to_hindi E text s)
      = Some (match strip text with
              | [] => []
              | _ :: _ => u "अनुवाद अनुपलब्ध है"
              end)).
Proof.
  split; [apply identify_and_explain_keywords_returns|].
  split; [|split; [|split; [|split]]].
  - intros Hnone. unfold LLMService.identify_and_explain_keywords.
    rewrite Hnone. reflexivity.
  - intros Hfail. unfold LLMService.identify_and_explain_keywords.
    destruct (google_search E) as [search|]; [|reflexivity].
    unfold try_except, bind at 1. rewrite Hfail, run_call_none. reflexivity.
  - intros search response Hsearch Hchat Hfail.
    unfold LLMService.identify_and_explain_keywords.
    rewrite Hsearch. unfold try_except, bind at 1.
    rewrite Hchat, run_call_some.
    destruct (LLMService.parse_keywords (strip response)) as [|kw kws] eqn:Hk;
      [reflexivity|].
    unfold bind. rewrite Hfail, run_call_none. reflexivity.
  - rewrite translate_to_hindi_run. destruct (strip text); eexists _, _;
      reflexivity.
  - intros Hfail. rewrite translate_to_hindi_run, Hfail.
    destruct (strip text); reflexivity.
Qed.

(** C10. For every generation that succeeds (the prompt is built and the
    LLM answers), the keyword explanation is attempted only in mode
    'beginner': for every other mode the 'keywords_explained' field of
    the result is None and the generation call is the only call made;
    in mode 'beginner' the field is a mapping. *)
Theorem C10_keywords_only_for_beginners (E : env) (query : pystr)
    (context_docs : list ranked) (mode : pystr) (s : state)
    (prompt response_text : pystr) :
  LLMService.create_prompt query context_docs mode = Returned prompt ->
  chat_completion E Config.LLM_MODEL
    [(u "system", LLMService.system_message); (u "user", prompt)]
  = Some response_text ->
  exists resp s',
    LLMService.generate_response E query context_docs mode s
    = (Returned resp, s')
    /\ lr_response resp = response_text
    /\ (mode <> u "beginner" ->
        lr_keywords_explained resp = None
        /\ trace s'
           = trace s
             ++ [EvChatCompletion Config.LLM_MODEL
                   [(u "system", LLMService.system_message);
                    (u "user", prompt)]])
    /\ (mode = u "beginner" ->
        exists m, lr_keywords_explained resp = Some m).
Proof.
  intros Hprompt Hchat.
  unfold LLMService.generate_response. rewrite run_reraise.
  unfold bind at 1. rewrite Hprompt.
  unfold bind at 1. rewrite Hchat, run_call_some.
  unfold pystr_eqb. case_bool_decide as Hmode.
  - destruct (identify_and_explain_keywords_returns E response_text
                (after_call
                   (EvChatCompletion Config.LLM_MODEL
                      [(u "system", LLMService.system_message);
                       (u "user", prompt)]) s))
      as (m & s' & Hk).
    unfold bind, after_call in *. rewrite Hk.
    eexists _, _. split; [reflexivity|]. simpl.
    split; [reflexivity|]. split; [congruence | eauto].
  - eexists _, _. split; [reflexivity|]. simpl.
    split; [reflexivity|]. split; [auto | congruence].
Qed.

Lemma C10_witness :
  exists resp s',
    LLMService.generate_response Sample.world (u "What is karma?") []
      (u "expert") Sample.s0
    = (Returned resp, s')
    /\ lr_response resp = u "Karma is action."
    /\ (u "expert" <> u "beginner" ->
        lr_keywords_explained resp = None
        /\ trace s'
           = trace Sample.s0
             ++ [EvChatCompletion Config.LLM_MODEL
                   [(u "system", LLMService.system_message);
                    (u "user",
                     LLMService.expert_prompt [] (u "What is karma?"))]])
    /\ (u "expert" = u "beginner" ->
        exists m, lr_keywords_explained resp = Some m).
Proof.
  apply (C10_keywords_only_for_beginners Sample.world (u "What is karma?") []
           (u "expert") Sample.s0
           (LLMService.expert_prompt [] (u "What is karma?"))
           (u "Karma is action.")).
  - reflexivity.
  - reflexivity.
Defined.

(** ** Claims on prompt construction and recommendations *)

(** C6, as stated, fails: the mode 'scholar' is neither 'beginner' nor
    'expert', and prompt construction returns the expert prompt for it
    instead of failing with a ValidationError. *)
Lemma C6_counterexample :
  u "scholar" <> u "beginner" /\ u "scholar" <> u "expert"
  /\ LLMService.create_prompt (u "What is karma?") [] (u "scholar")
     = Returned (LLMService.expert_prompt [] (u "What is karma?"))
  /\ LLMService.create_prompt (u "What is karma?") [] (u "scholar")
     <> Raised ValidationError.
Proof.
  split; [vm_compute; discriminate|]. split; [vm_compute; discriminate|].
  split; [reflexivity | discriminate].
Qed.

(** C6, amended. For every mode value other than 'beginner' (so for
    'expert' and for every unknown mode alike), prompt construction
    returns the expert variant of the prompt, built from the query and
    the source blocks of the evidence; it never fails. *)
Theorem C6_unknown_mode_gets_expert_prompt (query : pystr)
    (context_docs : list ranked) (mode : pystr) :
  mode <> u "beginner" ->
  LLMService.create_prompt query context_docs mode
  = Returned
      (LLMService.expert_prompt
         (join [nl; nl] (List.map LLMService.source_block context_docs))
         query)
  /\ LLMService.create_prompt query context_docs mode
     = LLMService.create_prompt query context_docs (u "expert").
Proof.
  intros Hmode. unfold LLMService.create_prompt, pystr_eqb.
  rewrite (bool_decide_eq_false_2 _ Hmode).
  split; reflexivity.
Qed.

Lemma C6_witness :
  LLMService.create_prompt (u "What is karma?") [] (u "scholar")
  = Returned
      (LLMService.expert_prompt
         (join [nl; nl] (List.map LLMService.source_block []))
         (u "What is karma?"))
  /\ LLMService.create_prompt (u "What is karma?") [] (u "scholar")
     = LLMService.create_prompt (u "What is karma?") [] (u "expert").
Proof.
  apply (C6_unknown_mode_gets_expert_prompt (u "What is karma?") []
           (u "scholar")).
  vm_compute. discriminate.
Defined.

Lemma first_seen_In xs x : In x (first_seen xs) <-> In x xs.
Proof.
  induction xs as [|y xs IH]; simpl; [tauto|].
  rewrite List.filter_In, IH. unfold pystr_eqb.
  split.
  - intros [H | [H _]]; auto.
  - intros [H | H]; [auto|].
    destruct (decide (x = y)) as [-> | Hne]; [auto|].
    right. split; [assumption|].
    rewrite (bool_decide_eq_false_2 _ Hne). reflexivity.
Qed.

Lemma first_seen_NoDup xs : NoDup (first_seen xs).
Proof.
  induction xs as [|y xs IH]; simpl; constructor.
  - rewrite list_elem_of_In, List.filter_In. intros [_ H].
    unfold pystr_eqb in H. rewrite bool_decide_eq_true_2 in H by reflexivity.
    discriminate.
  - apply NoDup_ListNoDup, List.NoDup_filter, NoDup_ListNoDup, IH.
Qed.

Lemma remove_dups_set_iteration : set_iteration remove_dups.
Proof.
  intros xs. split; [apply NoDup_remove_dups|].
  intros x. rewrite <- !list_elem_of_In. apply elem_of_remove_dups.
Qed.

Lemma book_names_In context_docs b :
  In b (LLMService.book_names context_docs) <->
  exists doc,
    In doc context_docs
    /\ metadata doc !! u "book_name" = Some b /\ b <> [].
Proof.
  unfold LLMService.book_names.
  rewrite <- list_elem_of_In, list_elem_of_omap.
  split.
  - intros (doc & Hdoc & Hb). exists doc.
    rewrite <- list_elem_of_In. split; [assumption|].
    unfold LLMService.book_of, LLMService.dict_get_truthy in Hb.
    case_bool_decide; [discriminate|].
    destruct (metadata doc !! u "book_name") as [[|c v]|];
      try discriminate.
    injection Hb as <-. split; [reflexivity | discriminate].
  - intros (doc & Hdoc & Hb & Hne). exists doc.
    rewrite list_elem_of_In. split; [assumption|].
    unfold LLMService.book_of, LLMService.dict_get_truthy.
    case_bool_decide as Hempty.
    + rewrite Hempty, lookup_empty in Hb. discriminate.
    + rewrite Hb. destruct b; [congruence | reflexivity].
Qed.

(** C5, as stated, fails on the order: in a world whose sets happen to
    be iterated with 'Chandogya Upanishad' before 'Bhagavad Gita', the
    evidence Gita, Upanishad, Gita yields the Upanishad first, whereas
    the order of first occurrence puts the Gita first. *)
Lemma C5_counterexample :
  set_iteration (list_of_set Sample.world)
  /\ LLMService.get_book_recommendations Sample.world evidence_with_repeat
     = [u "Chandogya Upanishad"; u "Bhagavad Gita"]
  /\ spec_recommendations evidence_with_repeat
     = [u "Bhagavad Gita"; u "Chandogya Upanishad"]
  /\ LLMService.get_book_recommendations Sample.world evidence_with_repeat
     <> spec_recommendations evidence_with_repeat.
Proof.
  split; [apply remove_dups_set_iteration|].
  split; [vm_compute; reflexivity|].
  split; [vm_compute; reflexivity|].
  vm_compute. discriminate.
Qed.

(** C5, amended. For every evidence set, including ones with repeated
    book_name values, the recommendations are deduplicated, at most
    three, and each of them is the non-empty book_name of an evidence
    item; their order is that in which the set of names is iterated,
    which the language leaves open.  When the evidence has at most
    three distinct book names, the recommendations are these names,
    that is the first-occurrence list up to order. *)
Theorem C5_recommendations_dedup_capped (E : env)
    (context_docs : list ranked) :
  set_iteration (list_of_set E) ->
  NoDup (LLMService.get_book_recommendations E context_docs)
  /\ length (LLMService.get_book_recommendations E context_docs) <= 3
  /\ (forall b,
         In b (LLMService.get_book_recommendations E context_docs) ->
         exists doc,
           In doc context_docs
           /\ metadata doc !! u "book_name" = Some b /\ b <> [])
  /\ (length (first_seen (LLMService.book_names context_docs)) <= 3 ->
      Permutation (LLMService.get_book_recommendations E context_docs)
        (spec_recommendations context_docs)).
Proof.
  intros Hset. unfold LLMService.get_book_recommendations, spec_recommendations.
  destruct context_docs as [|d docs].
  { simpl. repeat split; try constructor; [lia | intros b []]. }
  set (names := LLMService.book_names (d :: docs)).
  destruct (Hset names) as [Hnd Hin].
  split; [eapply sublist_NoDup; [exact Hnd | apply sublist_take]|].
  split; [rewrite length_take; lia|]. split.
  - intros b Hb. apply book_names_In. apply Hin.
    rewrite <- list_elem_of_In in Hb |- *.
    eapply subseteq_take; exact Hb.
  - intros Hlen.
    assert (Hperm : Permutation (list_of_set E names) (first_seen names)).
    { apply NoDup_Permutation; [assumption | apply first_seen_NoDup|].
      intros x. rewrite !list_elem_of_In, Hin, first_seen_In. reflexivity. }
    rewrite !firstn_all2; [assumption | assumption|].
    rewrite (Permutation_length Hperm). assumption.
Qed.

Lemma C5_witness :
  NoDup (LLMService.get_book_recommendations Sample.world evidence_with_repeat)
  /\ length (LLMService.get_book_recommendations Sample.world
               evidence_with_repeat) <= 3
  /\ (forall b,
         In b (LLMService.get_book_recommendations Sample.world
                 evidence_with_repeat) ->
         exists doc,
           In doc evidence_with_repeat
           /\ metadata doc !! u "book_name" = Some b /\ b <> [])
  /\ (length (first_seen (LLMService.book_names evidence_with_repeat)) <= 3 ->
      Permutation
        (LLMService.get_book_recommendations Sample.world evidence_with_repeat)
        (spec_recommendations evidence_with_repeat)).
Proof.
  apply (C5_recommendations_dedup_capped Sample.world evidence_with_repeat).
  apply remove_dups_set_iteration.
Defined.

(** ** Strings *)

Lemma split_ws_head d r :
  isspace d = false -> exists w ws, split_ws (d :: r) = (d :: w) :: ws.
Proof.
  intros Hd. cbn [split_ws]. rewrite Hd.
  destruct r as [|e r]; [eauto|].
  destruct (isspace e); [eauto|].
  destruct (split_ws (e :: r)); cbn [cons_head]; eauto.
Qed.

Lemma join_cons_head sep c ws :
  ws <> [] -> join sep (cons_head c ws) = c :: join sep ws.
Proof.
  destruct ws as [|w [|w' ws]]; [congruence | reflexivity | reflexivity].
Qed.

Lemma join_cons sep w ws :
  ws <> [] -> join sep (w :: ws) = w ++ sep ++ join sep ws.
Proof. destruct ws; [congruence | reflexivity]. Qed.

Lemma split_ws_space c s : isspace c = true -> split_ws (c :: s) = split_ws s.
Proof. intros Hc. cbn [split_ws]. rewrite Hc. reflexivity. Qed.

Lemma split_ws_bound s :
  length (join [sp] (split_ws s)) <= length s
  /\ (forall d r, s = d :: r -> isspace d = true ->
      length (join [sp] (split_ws s)) + 1 <= length s).
Proof.
  induction s as [|c s [IH1 IH2]].
  { split; [reflexivity | discriminate]. }
  destruct (isspace c) eqn:Hc.
  - rewrite (split_ws_space c s Hc). cbn [length].
    split; [lia | intros; lia].
  - split; [|intros d r [= <- <-]; congruence].
    cbn [split_ws]. rewrite Hc.
    destruct s as [|d r]; [reflexivity|].
    destruct (isspace d) eqn:Hd.
    + specialize (IH2 d r eq_refl Hd).
      destruct (split_ws (d :: r)) as [|w ws] eqn:Hs; [cbn; lia|].
      rewrite join_cons by discriminate.
      cbn [length app] in *. lia.
    + destruct (split_ws_head d r Hd) as (w & ws & Hs).
      rewrite join_cons_head by (rewrite Hs; discriminate).
      cbn [length] in *. lia.
Qed.

Lemma split_ws_words s : Forall word (split_ws s).
Proof.
  induction s as [|c s IH]; [constructor|].
  destruct (isspace c) eqn:Hc; [rewrite split_ws_space; assumption|].
  cbn [split_ws]. rewrite Hc.
  destruct s as [|d r].
  { repeat constructor; [discriminate | assumption]. }
  destruct (isspace d) eqn:Hd.
  - constructor; [|assumption]. split; [discriminate|].
    repeat constructor. assumption.
  - destruct (split_ws_head d r Hd) as (w & ws & Hs). rewrite Hs in IH |- *.
    cbn [cons_head]. apply Forall_cons_1 in IH as [[_ Hw] Hws].
    constructor; [|assumption]. split; [discriminate|].
    constructor; assumption.
Qed.

Lemma split_ws_word w : word w -> split_ws w = [w].
Proof.
  intros [Hne Hw]. induction Hw as [|c w Hc Hw IH]; [congruence|].
  cbn [split_ws]. rewrite Hc.
  destruct Hw as [|d w Hd Hw]; [reflexivity|].
  rewrite Hd, IH by discriminate. reflexivity.
Qed.

Lemma split_ws_app_word s w :
  word w -> exists body, join [sp] (split_ws (s ++ w)) = body ++ w.
Proof.
  intros Hw. induction s as [|c s [body IH]].
  { exists []. rewrite app_nil_l, split_ws_word by assumption. reflexivity. }
  rewrite <- app_comm_cons.
  destruct (isspace c) eqn:Hc.
  { exists body. rewrite split_ws_space; assumption. }
  cbn [split_ws]. rewrite Hc.
  destruct (s ++ w) as [|d t] eqn:Ht.
  { destruct Hw as [Hne _]. apply app_eq_nil in Ht as [_ ?]. congruence. }
  assert (Hnil : split_ws (d :: t) <> []).
  { intros H. rewrite H in IH. destruct Hw as [Hne _].
    cbn in IH. symmetry in IH. apply app_eq_nil in IH as [_ ?]. congruence. }
  destruct (isspace d).
  - exists (c :: sp :: body). rewrite join_cons by assumption.
    rewrite IH. reflexivity.
  - exists (c :: body). rewrite join_cons_head by assumption.
    rewrite IH. reflexivity.
Qed.

Lemma before_last_spec c s :
  match before_last c s with
  | Some p => exists rest, s = p ++ c :: rest /\ ~ In c rest
  | None => ~ In c s
  end.
Proof.
  induction s as [|x s IH]; cbn [before_last]; [intros []|].
  destruct (before_last c s) as [p|].
  - destruct IH as (rest & -> & Hrest). exists rest. auto.
  - destruct (N.eqb_spec x c) as [-> | Hne].
    + exists s. auto.
    + intros [H | H]; [congruence | auto].
Qed.

Lemma rsplit1_head_length c s : length (rsplit1_head c s) <= length s.
Proof.
  unfold rsplit1_head. pose proof (before_last_spec c s) as H.
  destruct (before_last c s) as [p|]; [|lia].
  destruct H as (rest & -> & _). rewrite length_app. lia.
Qed.

Lemma replace_length a b s : length (replace a b s) = length s.
Proof. apply length_map. Qed.

(** ** Claim on the session title *)

(** C7, as stated, fails twice.  A message of 66 characters gets a title
    of 52 characters, the three dots coming on top of the 49 characters
    kept; and a message of 54 characters that is short once stripped
    gets its text as title, with no dots appended. *)
Lemma C7_counterexample :
  (50 < length busy_life_message
   /\ ChatService.generate_session_title busy_life_message
      = u "How should a householder practise karma yoga in a..."
   /\ ~ length (ChatService.generate_session_title busy_life_message) <= 50)
  /\ (50 < length padded_message
      /\ ChatService.generate_session_title padded_message
         = u "What is karma?").
Proof.
  split; split.
  - vm_compute. lia.
  - split; [vm_compute; reflexivity|]. vm_compute. lia.
  - vm_compute. lia.
  - vm_compute. reflexivity.
Qed.

(** C7, amended. For every first user message that is longer than 50
    characters once stripped, the title is made of the first 50
    characters of the stripped message, cut before their last space
    when they contain one, followed by '...', with every whitespace run
    (newlines included) collapsed to a single space: it is a sequence
    of words joined by single spaces, it ends with '...', and it has at
    most 53 characters. *)
Theorem C7_title_of_long_message (first_message : pystr) :
  50 < length (strip first_message) ->
  let kept := firstn 50 (strip first_message) in
  let cut := rsplit1_head sp kept in
  let title := ChatService.generate_session_title first_message in
  ((exists rest, kept = cut ++ sp :: rest /\ ~ In sp rest)
   \/ (cut = kept /\ ~ In sp kept))
  /\ title = join [sp] (split_ws (replace nl sp (cut ++ u "...")))
  /\ (exists words, title = join [sp] words /\ Forall word words)
  /\ (exists body, title = body ++ u "...")
  /\ length title <= 53.
Proof.
  intros Hlong kept cut title.
  assert (Htitle :
            title = join [sp] (split_ws (replace nl sp (cut ++ u "...")))
            /\ exists body, title = body ++ u "...").
  { subst title. unfold ChatService.generate_session_title.
    apply Nat.ltb_lt in Hlong. rewrite Hlong. fold kept. fold cut.
    change (u " ") with [sp].
    destruct (split_ws_app_word (replace nl sp cut) (u "..."))
      as [body Hbody].
    { split; [discriminate|]. repeat constructor. }
    assert (Hrep : replace nl sp (cut ++ u "...")
                   = replace nl sp cut ++ u "...").
    { unfold replace. rewrite map_app. reflexivity. }
    rewrite Hrep, Hbody.
    destruct (body ++ u "...") as [|c r] eqn:Hb.
    - apply app_eq_nil in Hb as [_ Hb]. discriminate.
    - split; [reflexivity | exists body; symmetry; exact Hb]. }
  destruct Htitle as [Heq Hdots].
  split; [|split; [assumption|split; [|split; [assumption|]]]].
  - subst cut. unfold rsplit1_head.
    pose proof (before_last_spec sp kept) as H.
    destruct (before_last sp kept) as [p|]; [left | right; auto].
    exact H.
  - exists (split_ws (replace nl sp (cut ++ u "..."))).
    split; [assumption | apply split_ws_words].
  - rewrite Heq.
    etransitivity; [apply split_ws_bound|].
    rewrite replace_length, length_app.
    pose proof (rsplit1_head_length sp kept) as Hcut. fold cut in Hcut.
    assert (length kept <= 50) by (subst kept; rewrite length_take; lia).
    change (length (u "...")) with 3. lia.
Qed.

Lemma C7_witness :
  let kept := firstn 50 (strip busy_life_message) in
  let cut := rsplit1_head sp kept in
  let title := ChatService.generate_session_title busy_life_message in
  ((exists rest, kept = cut ++ sp :: rest /\ ~ In sp rest)
   \/ (cut = kept /\ ~ In sp kept))
  /\ title = join [sp] (split_ws (replace nl sp (cut ++ u "...")))
  /\ (exists words, title = join [sp] words /\ Forall word words)
  /\ (exists body, title = body ++ u "...")
  /\ length title <= 53.
Proof.
  apply (C7_title_of_long_message busy_life_message).
  vm_compute. lia.
Defined.

(** ** The scenarios of the specification, run *)

(** The title of the specification's example message: 44 characters
    kept, three dots appended. *)
Example title_of_spec_message :
  ChatService.generate_session_title
    (u "The meaning of dharma and karma in the Gita, explained simply for beginners with examples")
  = u "The meaning of dharma and karma in the Gita,...".
Proof. vm_compute. reflexivity. Qed.

Example title_of_blank_message :
  ChatService.generate_session_title [sp; nl; sp] = u "New Chat".
Proof. vm_compute. reflexivity. Qed.

(** The end-to-end scenario: a query in mode 'beginner' against an index
    holding a passage of the Bhagavad Gita is answered with citations,
    and the Bhagavad Gita is among the recommendations. *)
Example end_to_end_scenario :
  exists resp,
    value (RAGPipeline.process_query Sample.world
             (mkQueryRequest (u "What is karma?") (u "beginner") None)
             (u "user-1") Sample.s0) = Some resp
    /\ answer resp = u "Karma is action."
    /\ length (citations resp) = 2
    /\ In (u "Bhagavad Gita") (recommendations resp)
    /\ keywords_explained resp = Some ∅
    /\ session_id resp = u "s1".
Proof.
  eexists. split; [vm_compute; reflexivity|].
  repeat split. simpl. auto.
Qed.

(** With the reranker down the two candidates come back in retrieval
    order, ranked 1 and 2. *)
Example degraded_ranks :
  (map rank <$> value (VectorStore.search_and_rerank
                         (Sample.with_reranker (fun _ => None) Sample.world)
                         (u "What is karma?") Sample.s0)) = Some [1; 2].
Proof. vm_compute. reflexivity. Qed.

(** * Further properties of the code *)

(** ** Ingestion in batches *)

Lemma slices_concat {A} (step k : nat) (l : list A) :
  length l <= k * step ->
  concat (List.map (fun i => firstn step (skipn i l))
            (List.map (fun j => j * step) (seq 0 k))) = l.
Proof.
  revert l. induction k as [|k IH]; intros l Hlen.
  - destruct l; [reflexivity | simpl in Hlen; lia].
  - cbn [seq List.map concat]. rewrite <- seq_shift, !List.map_map.
    cbn [Nat.mul Nat.add skipn].
    transitivity (firstn step l ++ skipn step l); [|apply firstn_skipn].
    f_equal.
    rewrite <- (IH (skipn step l)) by (rewrite length_skipn; lia).
    rewrite List.map_map. f_equal. apply List.map_ext. intros j.
    rewrite skipn_skipn. do 2 f_equal. lia.
Qed.

Lemma ceil_div_bounds n step :
  0 < step ->
  n <= (n + step - 1) / step * step
  /\ (forall j, j < (n + step - 1) / step -> j * step < n).
Proof.
  intros Hstep.
  pose proof (Nat.div_mod_eq (n + step - 1) step) as Hdm.
  pose proof (Nat.mod_upper_bound (n + step - 1) step ltac:(lia)) as Hmod.
  split; [nia|]. intros j Hj. nia.
Qed.

Lemma batches_concat (documents : list Document) :
  concat (VectorStoreIngest.batches documents) = documents.
Proof.
  unfold VectorStoreIngest.batches, VectorStoreIngest.range_step,
    VectorStoreIngest.batch_size.
  apply slices_concat, ceil_div_bounds. lia.
Qed.

(** X1. The batches [add_documents] inserts partition the documents:
    put end to end they are the documents, in order; every batch holds
    between 1 and 100 documents; and there are as many of them as the
    log announces, [(len(documents) + 99) // 100].  So no document is
    inserted twice or left out, and an empty list gives no batch. *)
Theorem X1_batches_partition (documents : list Document) :
  concat (VectorStoreIngest.batches documents) = documents
  /\ Forall (fun batch => 1 <= length batch <= 100)
       (VectorStoreIngest.batches documents)
  /\ length (VectorStoreIngest.batches documents)
     = (length documents + 99) / 100.
Proof.
  unfold VectorStoreIngest.batches, VectorStoreIngest.range_step,
    VectorStoreIngest.batch_size.
  destruct (ceil_div_bounds (length documents) 100 ltac:(lia)) as [Hup Hlow].
  split; [apply batches_concat|]. split.
  - rewrite Forall_forall. intros batch Hin.
    apply list_elem_of_In in Hin. apply in_map_iff in Hin as (i & <- & Hi).
    apply in_map_iff in Hi as (j & <- & Hj). apply in_seq in Hj.
    specialize (Hlow j ltac:(lia)).
    rewrite length_take, length_skipn. lia.
  - rewrite !length_map, length_seq. f_equal. lia.
Qed.

Lemma add_batches_app store_add bs1 bs2 s :
  VectorStoreIngest.add_batches store_add (bs1 ++ bs2) s
  = match VectorStoreIngest.add_batches store_add bs1 s with
    | (Returned _, s') => VectorStoreIngest.add_batches store_add bs2 s'
    | (Raised e, s') => (Raised e, s')
    end.
Proof.
  revert s. induction bs1 as [|b bs1 IH]; intros s; [reflexivity|].
  cbn [app VectorStoreIngest.add_batches]. unfold bind, get_vectorstore.
  destruct (vectorstore s).
  - destruct (store_add b s) as [[[]|e] s1]; [apply IH | reflexivity].
  - reflexivity.
Qed.

(** X2. When the store is not open and cannot be opened, [add_documents]
    tries to open it once and then, if there is anything to insert,
    raises the AttributeError of the missing store without inserting
    anything; with an empty list of documents it returns normally. *)
Theorem X2_add_documents_without_store (E : env)
    (store_add : list Document -> M unit) (documents : list Document)
    (s : state) :
  vectorstore s = false ->
  chroma_open E = None ->
  VectorStoreIngest.add_documents E store_add documents s
  = (match documents with
     | [] => Returned tt
     | _ :: _ => Raised AttributeError
     end, opened E s).
Proof.
  intros Hvs Hopen.
  unfold VectorStoreIngest.add_documents. rewrite run_reraise.
  unfold bind at 1. unfold get_vectorstore at 1. rewrite Hvs.
  unfold bind at 1. rewrite initialize_vectorstore_run.
  destruct documents as [|d documents]; [reflexivity|].
  pose proof (batches_concat (d :: documents)) as Hcat.
  destruct (VectorStoreIngest.batches (d :: documents)) as [|b bs];
    [discriminate|].
  cbn [VectorStoreIngest.add_batches]. unfold bind, get_vectorstore, opened.
  cbn [vectorstore]. rewrite Hopen, Hvs. reflexivity.
Qed.

Lemma X2_witness :
  VectorStoreIngest.add_documents Sample2.closed_world
    Sample2.full_batches_only Sample2.corpus Sample.s0
  = (match Sample2.corpus with
     | [] => Returned tt
     | _ :: _ => Raised AttributeError
     end, opened Sample2.closed_world Sample.s0).
Proof.
  apply (X2_add_documents_without_store Sample2.closed_world
           Sample2.full_batches_only Sample2.corpus Sample.s0);
    reflexivity.
Defined.

(** X3. [add_documents] stops at the first batch whose insertion
    raises: it raises that same error, in the state the failed insertion
    left, so the batches after it are not inserted and the batches
    before it stay inserted (there is no rollback). *)
Theorem X3_add_documents_stops_at_failure (E : env)
    (store_add : list Document -> M unit) (documents : list Document)
    (s s2 s3 : state) (bs1 bs2 : list (list Document))
    (batch : list Document) (e : exn) :
  vectorstore s = true ->
  VectorStoreIngest.batches documents = bs1 ++ batch :: bs2 ->
  VectorStoreIngest.add_batches store_add bs1 s = (Returned tt, s2) ->
  vectorstore s2 = true ->
  store_add batch s2 = (Raised e, s3) ->
  VectorStoreIngest.add_documents E store_add documents s = (Raised e, s3).
Proof.
  intros Hvs Hsplit Hbefore Hvs2 Hfail.
  unfold VectorStoreIngest.add_documents. rewrite run_reraise.
  unfold bind at 1. unfold get_vectorstore at 1. rewrite Hvs.
  unfold bind at 1. unfold ret at 1.
  rewrite Hsplit, add_batches_app, Hbefore.
  cbn [VectorStoreIngest.add_batches]. unfold bind, get_vectorstore.
  rewrite Hvs2, Hfail. reflexivity.
Qed.

Lemma X3_witness :
  VectorStoreIngest.add_documents Sample.world Sample2.full_batches_only
    Sample2.corpus Sample2.ready
  = (Raised AttributeError, Sample2.ready).
Proof.
  apply (X3_add_documents_stops_at_failure Sample.world
           Sample2.full_batches_only Sample2.corpus Sample2.ready
           Sample2.ready Sample2.ready
           [firstn 100 Sample2.corpus] [] (skipn 100 Sample2.corpus)
           AttributeError).
  - reflexivity.
  - vm_compute. reflexivity.
  - vm_compute. reflexivity.
  - reflexivity.
  - vm_compute. reflexivity.
Defined.

(** ** More on reranking *)

Lemma scored_from_length i documents scores :
  length (VectorStore.scored_from i documents scores)
  = Nat.min (length documents) (length scores).
Proof.
  revert i scores.
  induction documents as [|d documents IH]; intros i [|x scores]; simpl;
    try reflexivity.
  now rewrite IH.
Qed.

Lemma scored_from_contents i documents scores :
  length documents <= length scores ->
  List.map content (VectorStore.scored_from i documents scores)
  = List.map page_content documents.
Proof.
  revert i scores.
  induction documents as [|d documents IH]; intros i [|x scores] Hlen; simpl;
    try reflexivity.
  - simpl in Hlen. lia.
  - f_equal. apply IH. simpl in Hlen. lia.
Qed.

(** X4. When the cross-encoder answers, [rerank_documents] has scored
    the candidates in one call, each paired with the query, in retrieval
    order; it returns [min(top_k, len(documents), len(scores))] items
    (a score list shorter than the candidate list silently drops the
    candidates without score); and when nothing is cut, that is with one
    score per candidate and [top_k] not below their number, the contents
    returned are those of the candidates, reordered. *)
Theorem X4_rerank_scores_once_and_keeps_candidates (E : env) (query : pystr)
    (documents : list Document) (top_k : nat) (s : state)
    (scores : list pyfloat) :
  documents <> [] ->
  reranker_predict E (rerank_pairs query documents) = Some scores ->
  exists results s',
    VectorStore.rerank_documents E query documents top_k s
    = (Returned results, s')
    /\ trace s'
       = trace s
         ++ [EvRerankerPredict
               (List.map (fun doc => (query, page_content doc)) documents)]
    /\ length results
       = Nat.min top_k (Nat.min (length documents) (length scores))
    /\ (length scores = length documents -> length documents <= top_k ->
        Permutation (List.map content results)
          (List.map page_content documents)).
Proof.
  intros Hne Hscores. rewrite rerank_documents_run.
  destruct documents as [|d documents]; [congruence|].
  cbv zeta. rewrite Hscores. eexists _, _. split; [reflexivity|].
  split; [reflexivity|]. split.
  - rewrite length_take, (Permutation_length (sorted_by_score_desc_perm _ _)),
      scored_from_length. reflexivity.
  - intros Hlen Htop. rewrite firstn_all2.
    + rewrite sorted_by_score_desc_perm, scored_from_contents by lia.
      reflexivity.
    + rewrite (Permutation_length (sorted_by_score_desc_perm _ _)),
        scored_from_length. lia.
Qed.

Lemma X4_witness :
  exists results s',
    VectorStore.rerank_documents Sample.world (u "What is karma?")
      [Sample.doc_gita; Sample.doc_upanishad] 3 Sample.s0
    = (Returned results, s')
    /\ trace s'
       = trace Sample.s0
         ++ [EvRerankerPredict
               (List.map (fun doc => (u "What is karma?", page_content doc))
                  [Sample.doc_gita; Sample.doc_upanishad])]
    /\ length results
       = Nat.min 3
           (Nat.min (length [Sample.doc_gita; Sample.doc_upanishad])
              (length [Finite (1 # 10); Finite (9 # 10)]))
    /\ (length [Finite (1 # 10); Finite (9 # 10)]
        = length [Sample.doc_gita; Sample.doc_upanishad] ->
        length [Sample.doc_gita; Sample.doc_upanishad] <= 3 ->
        Permutation (List.map content results)
          (List.map page_content [Sample.doc_gita; Sample.doc_upanishad])).
Proof.
  apply (X4_rerank_scores_once_and_keeps_candidates Sample.world
           (u "What is karma?") [Sample.doc_gita; Sample.doc_upanishad] 3
           Sample.s0 [Finite (1 # 10); Finite (9 # 10)]).
  - discriminate.
  - reflexivity.
Defined.

(** ** More on strings *)

Lemma lstrip_split s :
  exists p, s = p ++ lstrip s /\ Forall (fun c => isspace c = true) p.
Proof.
  induction s as [|c s (p & Hs & Hp)]; [exists []; split; [reflexivity | constructor]|].
  cbn [lstrip]. destruct (isspace c) eqn:Hc.
  - exists (c :: p). split; [cbn; congruence | constructor; assumption].
  - exists []. split; [reflexivity | constructor].
Qed.

Lemma lstrip_head s c r : lstrip s = c :: r -> isspace c = false.
Proof.
  induction s as [|x s IH]; [discriminate|].
  cbn [lstrip]. destruct (isspace x) eqn:Hx; [exact IH|].
  intros [= <- <-]. exact Hx.
Qed.

Lemma lstrip_fixed c r : isspace c = false -> lstrip (c :: r) = c :: r.
Proof. intros Hc. cbn [lstrip]. rewrite Hc. reflexivity. Qed.

Lemma rstrip_split s :
  exists p, s = rstrip s ++ p /\ Forall (fun c => isspace c = true) p.
Proof.
  unfold rstrip. destruct (lstrip_split (rev s)) as (p & Hs & Hp).
  exists (rev p). split.
  - rewrite <- rev_app_distr, <- Hs, rev_involutive. reflexivity.
  - apply Forall_rev. exact Hp.
Qed.

Lemma lstrip_idem s : lstrip (lstrip s) = lstrip s.
Proof.
  destruct (lstrip s) as [|c r] eqn:H; [reflexivity|].
  apply lstrip_fixed. exact (lstrip_head s c r H).
Qed.

Lemma strip_idem s : strip (strip s) = strip s.
Proof.
  unfold strip, rstrip.
  set (a := lstrip s). set (b := lstrip (rev a)).
  assert (Hb : lstrip b = b) by apply lstrip_idem.
  assert (Ht : lstrip (rev b) = rev b).
  { destruct (rev b) as [|x t] eqn:Hrev; [reflexivity|].
    apply lstrip_fixed.
    destruct (lstrip_split (rev a)) as (p & Ha & _). fold b in Ha.
    apply (f_equal (@rev N)) in Ha.
    rewrite rev_involutive, rev_app_distr, Hrev in Ha.
    apply (lstrip_head s x (t ++ rev p)). exact Ha. }
  rewrite Ht, rev_involutive, Hb. reflexivity.
Qed.

Lemma strip_In s x : In x (strip s) -> In x s.
Proof.
  intros Hx. unfold strip in Hx.
  destruct (rstrip_split (lstrip s)) as (q & Hq & _).
  destruct (lstrip_split s) as (p & Hp & _).
  rewrite Hp, Hq. apply in_or_app. right. apply in_or_app. left. exact Hx.
Qed.

Lemma strip_length s : length (strip s) <= length s.
Proof.
  unfold strip.
  destruct (rstrip_split (lstrip s)) as (q & Hq & _).
  destruct (lstrip_split s) as (p & Hp & _).
  rewrite Hp at 2. rewrite Hq at 2. rewrite !length_app. lia.
Qed.

Lemma split_on_pieces c s :
  Forall (fun piece => ~ In c piece) (split_on c s).
Proof.
  induction s as [|x s IH]; cbn [split_on].
  - repeat constructor. intros [].
  - destruct (N.eqb_spec x c) as [-> | Hne].
    + constructor; [intros [] | exact IH].
    + destruct (split_on c s) as [|w ws]; cbn [cons_head].
      * repeat constructor. intros [H | []]. congruence.
      * apply Forall_cons_1 in IH as [Hw Hws].
        constructor; [|exact Hws]. intros [H | H]; [congruence | auto].
Qed.

(** ** Keywords *)

(** X5. Whatever the model answers, the keywords parsed from its answer
    are well formed: none is empty, none starts or ends with whitespace
    (stripping it again changes nothing), and none contains a comma. *)
Theorem X5_parse_keywords_well_formed (keywords_str : pystr) :
  Forall (fun kw => kw <> [] /\ strip kw = kw /\ ~ In comma kw)
    (LLMService.parse_keywords keywords_str).
Proof.
  unfold LLMService.parse_keywords.
  rewrite Forall_forall. intros kw Hkw.
  apply list_elem_of_In, in_map_iff in Hkw as (piece & <- & Hpiece).
  apply List.filter_In in Hpiece as [Hin Hkeep].
  split; [|split].
  - destruct (strip piece); [discriminate | discriminate].
  - apply strip_idem.
  - intros Hc. apply strip_In in Hc.
    pose proof (split_on_pieces comma keywords_str) as Hall.
    rewrite Forall_forall in Hall.
    apply (Hall piece); [apply list_elem_of_In; exact Hin | exact Hc].
Qed.

Lemma explain_keyword_cases (E : env) (results : list search_result)
    (m : gmap pystr pystr) (kw : pystr) :
  exists v,
    LLMService.explain_keyword E results m kw = <[str_title E kw := v]> m
    /\ (v = u "Meaning not found."
        \/ exists res rest, In res results /\ sr_snippets res = v :: rest).
Proof.
  unfold LLMService.explain_keyword.
  destruct (List.find _ results) as [[q [|d rest]]|] eqn:Hfind;
    try (eexists; split; [reflexivity | left; reflexivity]).
  eexists. split; [reflexivity|]. right.
  apply List.find_some in Hfind as [Hin _].
  exists (mkSearchResult q (d :: rest)), rest. auto.
Qed.

Lemma explain_fold (E : env) (results : list search_result)
    (kws : list pystr) (m0 : gmap pystr pystr) :
  (forall k,
      is_Some (fold_left (LLMService.explain_keyword E results) kws m0 !! k)
      <-> is_Some (m0 !! k) \/ In k (List.map (str_title E) kws))
  /\ (forall k v,
         fold_left (LLMService.explain_keyword E results) kws m0 !! k
         = Some v ->
         m0 !! k = Some v
         \/ v = u "Meaning not found."
         \/ exists res rest, In res results /\ sr_snippets res = v :: rest).
Proof.
  revert m0. induction kws as [|kw kws IH]; intros m0; cbn [fold_left List.map].
  { split; [intros k; cbn; tauto | auto]. }
  destruct (explain_keyword_cases E results m0 kw) as (v & -> & Hv).
  destruct (IH (<[str_title E kw := v]> m0)) as [IHdom IHval].
  split.
  - intros k. rewrite IHdom, lookup_insert_is_Some. cbn [In].
    destruct (decide (str_title E kw = k)); tauto.
  - intros k w Hk. apply IHval in Hk as [Hk | Hk]; [|auto].
    apply lookup_insert_Some in Hk as [[_ <-] | [_ Hk]]; auto.
Qed.

(** X6. When the term extraction and the search both answer,
    [identify_and_explain_keywords] returns a mapping whose keys are
    exactly the title-cased keywords parsed from the model's answer
    (however many the model lists: the 'maximum of 3' of the prompt is
    not enforced), and whose every value is either the first snippet of
    one of the search results or the text 'Meaning not found.'. *)
Theorem X6_keyword_explanations (E : env) (text : pystr) (s : state)
    (search : list pystr -> option (list (list search_result)))
    (response : pystr) (search_results_list : list (list search_result)) :
  google_search E = Some search ->
  chat_completion E (u "llama3-8b-8192")
    [(u "user", LLMService.keywords_prompt text)] = Some response ->
  search (LLMService.search_queries_of
            (LLMService.parse_keywords (strip response)))
  = Some search_results_list ->
  exists m s',
    LLMService.identify_and_explain_keywords E text s = (Returned m, s')
    /\ (forall k,
           is_Some (m !! k)
           <-> In k (List.map (str_title E)
                       (LLMService.parse_keywords (strip response))))
    /\ (forall k v,
           m !! k = Some v ->
           v = u "Meaning not found."
           \/ exists res rest,
                In res (concat search_results_list)
                /\ sr_snippets res = v :: rest).
Proof.
  intros Htool Hchat Hsearch.
  unfold LLMService.identify_and_explain_keywords.
  rewrite Htool. unfold try_except, bind at 1.
  rewrite Hchat, run_call_some.
  destruct (LLMService.parse_keywords (strip response)) as [|kw kws] eqn:Hk.
  { eexists _, _. split; [reflexivity|]. split.
    - intros k. rewrite lookup_empty. cbn. split; [intros [? ?]; discriminate | tauto].
    - intros k v Hv. rewrite lookup_empty in Hv. discriminate. }
  unfold bind. rewrite Hsearch, run_call_some. unfold ret.
  eexists _, _. split; [reflexivity|].
  destruct (explain_fold E (concat search_results_list) (kw :: kws) ∅)
    as [Hdom Hval].
  split.
  - intros k. rewrite Hdom, lookup_empty.
    split; [intros [[? ?] | ?]; [discriminate | assumption] | auto].
  - intros k v Hv. apply Hval in Hv as [Hv | Hv]; [|exact Hv].
    rewrite lookup_empty in Hv. discriminate.
Qed.

Lemma X6_witness :
  exists m s',
    LLMService.identify_and_explain_keywords Sample2.searching_world
      (u "Karma is action.") Sample.s0 = (Returned m, s')
    /\ (forall k,
           is_Some (m !! k)
           <-> In k (List.map (str_title Sample2.searching_world)
                       (LLMService.parse_keywords
                          (strip (u " karma, dharma ")))))
    /\ (forall k v,
           m !! k = Some v ->
           v = u "Meaning not found."
           \/ exists res rest,
                In res
                  (concat
                     [List.map
                        (fun q => mkSearchResult (Some q) [u "A key idea."])
                        (LLMService.search_queries_of
                           (LLMService.parse_keywords
                              (strip (u " karma, dharma "))))])
                /\ sr_snippets res = v :: rest).
Proof.
  apply (X6_keyword_explanations Sample2.searching_world
           (u "Karma is action.") Sample.s0 Sample2.one_snippet_search
           (u " karma, dharma ")).
  - reflexivity.
  - reflexivity.
  - reflexivity.
Defined.

Example keywords_of_answer :
  LLMService.parse_keywords (strip (u " karma, dharma ,, "))
  = [u "karma"; u "dharma"]
  /\ value (LLMService.identify_and_explain_keywords Sample2.searching_world
              (u "Karma is action.") Sample.s0)
     = Some {[ u "karma" := u "A key idea."; u "dharma" := u "A key idea." ]}.
Proof. split; vm_compute; reflexivity. Qed.

(** ** More on the session title *)

Lemma split_ws_spaces p :
  Forall (fun c => isspace c = true) p -> split_ws p = [].
Proof.
  induction 1 as [|c p Hc Hp IH]; [reflexivity|].
  rewrite split_ws_space; assumption.
Qed.

Lemma split_ws_app_spaces t p :
  Forall (fun c => isspace c = true) p -> split_ws (t ++ p) = split_ws t.
Proof.
  intros Hp. induction t as [|c t IH]; [apply split_ws_spaces, Hp|].
  rewrite <- app_comm_cons. cbn [split_ws].
  destruct (isspace c); [exact IH|].
  destruct t as [|d t].
  - cbn [app]. destruct Hp as [|d p Hd Hp]; [reflexivity|].
    rewrite Hd, split_ws_space by exact Hd.
    rewrite (split_ws_spaces p Hp). reflexivity.
  - rewrite <- app_comm_cons in *. rewrite IH. reflexivity.
Qed.

Lemma split_ws_lstrip s : split_ws (lstrip s) = split_ws s.
Proof.
  induction s as [|c s IH]; [reflexivity|].
  cbn [lstrip]. destruct (isspace c) eqn:Hc; [|reflexivity].
  rewrite split_ws_space by exact Hc. exact IH.
Qed.

Lemma split_ws_strip s : split_ws (strip s) = split_ws s.
Proof.
  unfold strip. destruct (rstrip_split (lstrip s)) as (p & Hs & Hp).
  rewrite <- (split_ws_lstrip s). rewrite Hs at 2.
  rewrite split_ws_app_spaces by exact Hp. reflexivity.
Qed.

Lemma split_ws_replace s : split_ws (replace nl sp s) = split_ws s.
Proof.
  assert (Hf : forall c,
             isspace (if (c =? nl)%N then sp else c) = isspace c
             /\ (isspace c = false -> (if (c =? nl)%N then sp else c) = c)).
  { intros c. destruct (N.eqb_spec c nl) as [-> | Hne]; split; auto.
    intros H. vm_compute in H. discriminate. }
  unfold replace. induction s as [|c s IH]; [reflexivity|].
  cbn [List.map split_ws]. destruct (Hf c) as [Hc Hfix]. rewrite Hc.
  destruct (isspace c) eqn:Hsp; [exact IH|].
  rewrite (Hfix eq_refl).
  destruct s as [|d s]; [reflexivity|].
  cbn [List.map] in *. destruct (Hf d) as [Hd _]. rewrite Hd, IH.
  reflexivity.
Qed.

Lemma join_words_nil ws : Forall word ws -> join [sp] ws = [] -> ws = [].
Proof.
  intros Hws Hj. destruct Hws as [|w ws [Hne _] Hws]; [reflexivity|].
  destruct ws; cbn in Hj; [congruence|].
  apply app_eq_nil in Hj as [? _]. congruence.
Qed.

(** X7. For every first message, whatever its length, the session title
    is never empty and has at most 53 characters, and it is a sequence
    of words separated by single spaces: it has no newline, no other
    whitespace character, and no space at either end. *)
Theorem X7_title_shape (first_message : pystr) :
  exists words,
    ChatService.generate_session_title first_message = join [sp] words
    /\ words <> []
    /\ Forall word words
    /\ 1 <= length (ChatService.generate_session_title first_message) <= 53.
Proof.
  unfold ChatService.generate_session_title.
  change (u " ") with [sp].
  set (t := if 50 <? length (strip first_message) then _ else _).
  assert (Ht : length t <= 53).
  { subst t. destruct (Nat.ltb_spec 50 (length (strip first_message))).
    - rewrite length_app.
      pose proof (rsplit1_head_length sp
                    (firstn 50 (strip first_message))) as Hcut.
      rewrite length_take in Hcut. change (length (u "...")) with 3. lia.
    - lia. }
  pose proof (split_ws_words (replace nl sp t)) as Hwords.
  pose proof (proj1 (split_ws_bound (replace nl sp t))) as Hlen.
  rewrite replace_length in Hlen.
  destruct (join [sp] (split_ws (replace nl sp t))) as [|c r] eqn:Hj.
  - exists [u "New"; u "Chat"]. split; [reflexivity|].
    split; [discriminate|]. split; [|vm_compute; lia].
    repeat constructor; discriminate.
  - exists (split_ws (replace nl sp t)). split; [symmetry; exact Hj|].
    split; [intros H; rewrite H in Hj; discriminate|].
    split; [exact Hwords|]. cbn [length] in *. lia.
Qed.

(** X8. A first message of at most 50 characters once stripped is
    titled with its own words, in order, joined by single spaces;
    a message without any word is titled 'New Chat'. *)
Theorem X8_title_of_short_message (first_message : pystr) :
  length (strip first_message) <= 50 ->
  ChatService.generate_session_title first_message
  = match split_ws first_message with
    | [] => u "New Chat"
    | _ :: _ => join [sp] (split_ws first_message)
    end.
Proof.
  intros Hshort. unfold ChatService.generate_session_title.
  apply Nat.ltb_ge in Hshort. rewrite Hshort.
  change (u " ") with [sp].
  rewrite split_ws_replace, split_ws_strip.
  pose proof (split_ws_words first_message) as Hwords.
  destruct (split_ws first_message) as [|w ws] eqn:Hs; [reflexivity|].
  destruct (join [sp] (w :: ws)) eqn:Hj; [|reflexivity].
  apply join_words_nil in Hj; [discriminate | exact Hwords].
Qed.

Lemma X8_witness :
  ChatService.generate_session_title padded_message
  = match split_ws padded_message with
    | [] => u "New Chat"
    | _ :: _ => join [sp] (split_ws padded_message)
    end.
Proof.
  apply (X8_title_of_short_message padded_message).
  vm_compute. lia.
Defined.

(** ** Persistence of the conversation *)

Lemma add_message_to_session_run E sid user_id message s :
  ChatService.add_message_to_session E sid user_id message s
  = (Returned
       match db_push_message E sid user_id message with
       | Some b => b
       | None => false
       end,
     after_call (EvAddMessage sid user_id message) s).
Proof.
  unfold ChatService.add_message_to_session, try_except, call, bind, emit,
    ret, raise, after_call.
  destruct (db_push_message E sid user_id message); reflexivity.
Qed.

Lemma create_chat_session_run E user_id title s :
  ChatService.create_chat_session E user_id title s
  = (match db_insert_session E user_id title with
     | Some sid => Returned sid
     | None => Raised (ExternalError (EvCreateSession user_id title))
     end,
     after_call (EvCreateSession user_id title) s).
Proof.
  unfold ChatService.create_chat_session. rewrite run_reraise.
  unfold call, bind, emit, ret, raise, after_call.
  destruct (db_insert_session E user_id title); reflexivity.
Qed.

(** X9. With a session id at hand, [handle_chat_session] creates no
    session and never raises: it writes the user message and then the
    assistant message (with the citations and the translation) to that
    session and returns its id, also when the database refuses or fails
    either write, in which case the message is lost silently. *)
Theorem X9_existing_session_gets_both_messages (E : env)
    (user_id sid query response mode : pystr) (cits : list citation)
    (hindi : pystr) (s : state) :
  sid <> [] ->
  exists s',
    RAGPipeline.handle_chat_session E user_id (Some sid) query response mode
      cits hindi s
    = (Returned sid, s')
    /\ trace s'
       = trace s
         ++ [EvAddMessage sid user_id
               (mkChatMessage (u "user") query mode [] None);
             EvAddMessage sid user_id
               (mkChatMessage (u "assistant") response mode cits
                  (Some hindi))].
Proof.
  intros Hsid. destruct sid as [|c sid]; [congruence|].
  unfold RAGPipeline.handle_chat_session.
  unfold bind at 1. unfold ret at 1.
  unfold bind at 1. rewrite add_message_to_session_run.
  unfold bind at 1. rewrite add_message_to_session_run.
  eexists. split; [reflexivity|]. cbn [after_call trace].
  rewrite <- app_assoc. reflexivity.
Qed.

Lemma X9_witness :
  exists s',
    RAGPipeline.handle_chat_session Sample.world (u "user-1") (Some (u "s7"))
      (u "What is karma?") (u "Karma is action.") (u "expert") []
      (u "कर्म") Sample.s0
    = (Returned (u "s7"), s')
    /\ trace s'
       = trace Sample.s0
         ++ [EvAddMessage (u "s7") (u "user-1")
               (mkChatMessage (u "user") (u "What is karma?") (u "expert")
                  [] None);
             EvAddMessage (u "s7") (u "user-1")
               (mkChatMessage (u "assistant") (u "Karma is action.")
                  (u "expert") [] (Some (u "कर्म")))].
Proof.
  apply (X9_existing_session_gets_both_messages Sample.world (u "user-1")
           (u "s7") (u "What is karma?") (u "Karma is action.") (u "expert")
           [] (u "कर्म") Sample.s0).
  vm_compute. discriminate.
Defined.

(** X10. Without a session id (None or the empty string),
    [handle_chat_session] first creates a session titled by
    [generate_session_title] of the query.  If the creation fails, the
    error is raised and no message is written; otherwise both messages
    go to the new session, whose id is returned. *)
Theorem X10_new_session_is_created_first (E : env)
    (user_id query response mode : pystr) (sid : option pystr)
    (cits : list citation) (hindi : pystr) (s : state) :
  sid = None \/ sid = Some [] ->
  let title := ChatService.generate_session_title query in
  exists s',
    RAGPipeline.handle_chat_session E user_id sid query response mode cits
      hindi s
    = (match db_insert_session E user_id title with
       | Some new => Returned new
       | None => Raised (ExternalError (EvCreateSession user_id title))
       end, s')
    /\ trace s'
       = trace s
         ++ EvCreateSession user_id title
            :: match db_insert_session E user_id title with
               | Some new =>
                 [EvAddMessage new user_id
                    (mkChatMessage (u "user") query mode [] None);
                  EvAddMessage new user_id
                    (mkChatMessage (u "assistant") response mode cits
                       (Some hindi))]
               | None => []
               end.
Proof.
  intros Hsid title.
  assert (Hrun :
            RAGPipeline.handle_chat_session E user_id sid query response mode
              cits hindi s
            = RAGPipeline.handle_chat_session E user_id None query response
                mode cits hindi s).
  { destruct Hsid as [-> | ->]; reflexivity. }
  rewrite Hrun. unfold RAGPipeline.handle_chat_session.
  unfold bind at 1. rewrite create_chat_session_run. fold title.
  destruct (db_insert_session E user_id title) as [new|].
  - unfold bind at 1. rewrite add_message_to_session_run.
    unfold bind at 1. rewrite add_message_to_session_run.
    eexists. split; [reflexivity|]. cbn [after_call trace].
    rewrite <- !app_assoc. reflexivity.
  - eexists. split; [reflexivity|]. reflexivity.
Qed.

Lemma X10_witness :
  let title := ChatService.generate_session_title (u "What is karma?") in
  exists s',
    RAGPipeline.handle_chat_session Sample.world (u "user-1") (Some [])
      (u "What is karma?") (u "Karma is action.") (u "expert") []
      (u "कर्म") Sample.s0
    = (match db_insert_session Sample.world (u "user-1") title with
       | Some new => Returned new
       | None => Raised (ExternalError (EvCreateSession (u "user-1") title))
       end, s')
    /\ trace s'
       = trace Sample.s0
         ++ EvCreateSession (u "user-1") title
            :: match db_insert_session Sample.world (u "user-1") title with
               | Some new =>
                 [EvAddMessage new (u "user-1")
                    (mkChatMessage (u "user") (u "What is karma?")
                       (u "expert") [] None);
                  EvAddMessage new (u "user-1")
                    (mkChatMessage (u "assistant") (u "Karma is action.")
                       (u "expert") [] (Some (u "कर्म")))]
               | None => []
               end.
Proof.
  apply (X10_new_session_is_created_first Sample.world (u "user-1")
           (u "What is karma?") (u "Karma is action.") (u "expert")
           (Some []) [] (u "कर्म") Sample.s0).
  right. reflexivity.
Defined.

(** ** The pipeline, end to end *)

Lemma generate_response_run E query context_docs mode prompt s :
  LLMService.create_prompt query context_docs mode = Returned prompt ->
  mode <> u "beginner" ->
  let ev :=
    EvChatCompletion Config.LLM_MODEL
      [(u "system", LLMService.system_message); (u "user", prompt)] in
  LLMService.generate_response E query context_docs mode s
  = (match chat_completion E Config.LLM_MODEL
             [(u "system", LLMService.system_message); (u "user", prompt)]
     with
     | Some text =>
       Returned
         (mkLlmResponse text (LLMService.extract_citations context_docs)
            (LLMService.get_book_recommendations E context_docs) None)
     | None => Raised (ExternalError ev)
     end, after_call ev s).
Proof.
  intros Hprompt Hmode ev.
  unfold LLMService.generate_response. rewrite run_reraise.
  unfold bind at 1. rewrite Hprompt. unfold bind at 1. fold ev.
  destruct (chat_completion E Config.LLM_MODEL _) as [text|].
  - rewrite run_call_some. unfold pystr_eqb.
    rewrite (bool_decide_eq_false_2 _ Hmode). reflexivity.
  - rewrite run_call_none. reflexivity.
Qed.

Lemma generate_response_fails E query context_docs mode prompt s :
  LLMService.create_prompt query context_docs mode = Returned prompt ->
  chat_completion E Config.LLM_MODEL
    [(u "system", LLMService.system_message); (u "user", prompt)] = None ->
  let ev :=
    EvChatCompletion Config.LLM_MODEL
      [(u "system", LLMService.system_message); (u "user", prompt)] in
  LLMService.generate_response E query context_docs mode s
  = (Raised (ExternalError ev), after_call ev s).
Proof.
  intros Hprompt Hchat ev.
  unfold LLMService.generate_response. rewrite run_reraise.
  unfold bind at 1. rewrite Hprompt. unfold bind at 1.
  rewrite Hchat, run_call_none. reflexivity.
Qed.

Lemma process_query_after_retrieval E query_request user_id s s1 d ds :
  initialized s = true ->
  VectorStore.search_and_rerank E (qr_query query_request) s
  = (Returned (d :: ds), s1) ->
  RAGPipeline.process_query E query_request user_id s
  = (let* llm_response :=
       LLMService.generate_response E (qr_query query_request) (d :: ds)
         (qr_mode query_request) in
     let* hindi :=
       LLMService.translate_to_hindi E (lr_response llm_response) in
     let* sid :=
       RAGPipeline.handle_chat_session E user_id
         (qr_session_id query_request) (qr_query query_request)
         (lr_response llm_response) (qr_mode query_request)
         (lr_citations llm_response) hindi in
     ret (mkQueryResponse (lr_response llm_response) hindi
            (lr_citations llm_response) (lr_recommendations llm_response)
            (lr_keywords_explained llm_response) sid)) s1.
Proof.
  intros Hinit Hdocs. unfold RAGPipeline.process_query.
  rewrite run_reraise. unfold bind at 1. rewrite initialize_run, Hinit.
  unfold bind at 1. rewrite Hdocs. reflexivity.
Qed.

(** X11. If the answer generation fails (the LLM call raises) after a
    successful retrieval, [process_query] raises that error, and the
    failed call is the last thing it did: nothing is translated, no
    session is created and no message is written. *)
Theorem X11_generation_failure_persists_nothing (E : env)
    (query_request : QueryRequest) (user_id : pystr) (s s1 : state)
    (d : ranked) (ds : list ranked) (prompt : pystr) :
  initialized s = true ->
  VectorStore.search_and_rerank E (qr_query query_request) s
  = (Returned (d :: ds), s1) ->
  LLMService.create_prompt (qr_query query_request) (d :: ds)
    (qr_mode query_request) = Returned prompt ->
  chat_completion E Config.LLM_MODEL
    [(u "system", LLMService.system_message); (u "user", prompt)] = None ->
  exists s',
    RAGPipeline.process_query E query_request user_id s
    = (Raised
         (ExternalError
            (EvChatCompletion Config.LLM_MODEL
               [(u "system", LLMService.system_message); (u "user", prompt)])),
       s')
    /\ trace s'
       = trace s1
         ++ [EvChatCompletion Config.LLM_MODEL
               [(u "system", LLMService.system_message); (u "user", prompt)]].
Proof.
  intros Hinit Hdocs Hprompt Hchat.
  rewrite (process_query_after_retrieval E query_request user_id s s1 d ds
             Hinit Hdocs).
  unfold bind at 1.
  rewrite (generate_response_fails E _ _ _ prompt s1 Hprompt Hchat).
  eexists. split; reflexivity.
Qed.

Lemma X11_witness :
  exists prompt s1 s',
    RAGPipeline.process_query Sample2.silent_llm_world
      (mkQueryRequest (u "What is karma?") (u "expert") None) (u "user-1")
      Sample2.ready
    = (Raised
         (ExternalError
            (EvChatCompletion Config.LLM_MODEL
               [(u "system", LLMService.system_message); (u "user", prompt)])),
       s')
    /\ trace s'
       = trace s1
         ++ [EvChatCompletion Config.LLM_MODEL
               [(u "system", LLMService.system_message); (u "user", prompt)]].
Proof.
  eexists _, _.
  eapply (X11_generation_failure_persists_nothing Sample2.silent_llm_world
            (mkQueryRequest (u "What is karma?") (u "expert") None)
            (u "user-1") Sample2.ready).
  - reflexivity.
  - vm_compute. reflexivity.
  - reflexivity.
  - reflexivity.
Defined.

Lemma handle_chat_session_existing E user_id sid query response mode cits
    hindi s :
  sid <> [] ->
  RAGPipeline.handle_chat_session E user_id (Some sid) query response mode
    cits hindi s
  = (Returned sid,
     after_call
       (EvAddMessage sid user_id
          (mkChatMessage (u "assistant") response mode cits (Some hindi)))
       (after_call
          (EvAddMessage sid user_id
             (mkChatMessage (u "user") query mode [] None)) s)).
Proof.
  intros Hsid. destruct sid as [|c sid]; [congruence|].
  unfold RAGPipeline.handle_chat_session.
  unfold bind at 1. unfold ret at 1.
  unfold bind at 1. rewrite add_message_to_session_run.
  unfold bind at 1. rewrite add_message_to_session_run.
  reflexivity.
Qed.

(** X12. In a mode other than 'beginner', with a session id at hand,
    once retrieval yields evidence and the LLM answers, [process_query]
    returns the LLM's text as answer with the citations and
    recommendations drawn from the evidence and no keyword explanations;
    after the generation it translates the answer (unless the answer is
    blank; a failing translation gives the marker) and then writes the
    user message and the assistant message, in this order; the stored
    assistant message carries the same citations and translation as the
    response. *)
Theorem X12_answer_translated_then_persisted (E : env)
    (query_request : QueryRequest) (user_id : pystr) (s s1 : state)
    (d : ranked) (ds : list ranked) (prompt text sid : pystr) :
  initialized s = true ->
  VectorStore.search_and_rerank E (qr_query query_request) s
  = (Returned (d :: ds), s1) ->
  LLMService.create_prompt (qr_query query_request) (d :: ds)
    (qr_mode query_request) = Returned prompt ->
  qr_mode query_request <> u "beginner" ->
  chat_completion E Config.LLM_MODEL
    [(u "system", LLMService.system_message); (u "user", prompt)]
  = Some text ->
  qr_session_id query_request = Some sid ->
  sid <> [] ->
  let hindi :=
    match strip text with
    | [] => []
    | _ :: _ =>
      match translator E text with
      | Some t => t
      | None => LLMService.translation_unavailable
      end
    end in
  exists s',
    RAGPipeline.process_query E query_request user_id s
    = (Returned
         (mkQueryResponse text hindi
            (LLMService.extract_citations (d :: ds))
            (LLMService.get_book_recommendations E (d :: ds)) None sid),
       s')
    /\ trace s'
       = trace s1
         ++ [EvChatCompletion Config.LLM_MODEL
               [(u "system", LLMService.system_message); (u "user", prompt)]]
         ++ match strip text with
            | [] => []
            | _ :: _ => [EvTranslate text]
            end
         ++ [EvAddMessage sid user_id
               (mkChatMessage (u "user") (qr_query query_request)
                  (qr_mode query_request) [] None);
             EvAddMessage sid user_id
               (mkChatMessage (u "assistant") text (qr_mode query_request)
                  (LLMService.extract_citations (d :: ds)) (Some hindi))].
Proof.
  intros Hinit Hdocs Hprompt Hmode Hchat Hsid Hne hindi.
  rewrite (process_query_after_retrieval E query_request user_id s s1 d ds
             Hinit Hdocs).
  unfold bind at 1.
  rewrite (generate_response_run E _ _ _ prompt s1 Hprompt Hmode), Hchat.
  cbn [lr_response lr_citations lr_recommendations lr_keywords_explained].
  unfold bind at 1. rewrite translate_to_hindi_run. subst hindi.
  rewrite Hsid.
  destruct (strip text) as [|c r].
  - unfold bind at 1. rewrite handle_chat_session_existing by exact Hne.
    eexists. split; [reflexivity|]. cbn [after_call trace app].
    rewrite <- !app_assoc. reflexivity.
  - unfold bind at 1. rewrite handle_chat_session_existing by exact Hne.
    eexists. split; [reflexivity|]. cbn [after_call trace app].
    rewrite <- !app_assoc. reflexivity.
Qed.

Lemma X12_witness :
  exists resp s',
    RAGPipeline.process_query Sample.world
      (mkQueryRequest (u "What is karma?") (u "expert") (Some (u "s7")))
      (u "user-1") Sample2.ready
    = (Returned resp, s')
    /\ answer resp = u "Karma is action."
    /\ hindi_translation resp = u "कर्म"
    /\ session_id resp = u "s7".
Proof.
  edestruct (X12_answer_translated_then_persisted Sample.world
               (mkQueryRequest (u "What is karma?") (u "expert")
                  (Some (u "s7")))
               (u "user-1") Sample2.ready) as (s' & Hrun & _).
  - reflexivity.
  - vm_compute. reflexivity.
  - reflexivity.
  - vm_compute. discriminate.
  - reflexivity.
  - reflexivity.
  - vm_compute. discriminate.
  - eexists _, s'. split; [exact Hrun|]. repeat split.
Defined.

(** X13. [process_voice_query] removes the audio file it was handed,
    when that file exists, as the last thing it does, whatever happened
    before: also when the transcription, the retrieval or the generation
    raised, in which case the error is still raised to the caller. *)
Theorem X13_audio_file_always_removed (E : env)
    (audio_file_path mode user_id : pystr) (sid : option pystr) (s : state) :
  path_exists E audio_file_path = true ->
  (exists r s1,
      RAGPipeline.process_voice_query E audio_file_path mode user_id sid s
      = (r, after_call (EvRemoveFile audio_file_path) s1))
  /\ (whisper E audio_file_path = None ->
      RAGPipeline.process_voice_query E audio_file_path mode user_id sid s
      = (Raised (ExternalError (EvTranscribe audio_file_path)),
         after_call (EvRemoveFile audio_file_path)
           (after_call (EvTranscribe audio_file_path) s))).
Proof.
  intros Hexists. unfold RAGPipeline.process_voice_query, try_finally.
  unfold RAGPipeline.remove_audio_file. rewrite Hexists. split.
  - match goal with
    | |- context [match ?body s with _ => _ end] =>
      destruct (body s) as [r s1]
    end.
    exists r, s1. reflexivity.
  - intros Hfail. unfold bind at 1. unfold LLMService.transcribe_audio.
    rewrite run_reraise, Hfail, run_call_none. reflexivity.
Qed.

Lemma X13_witness :
  (exists r s1,
      RAGPipeline.process_voice_query Sample.world (u "/tmp/a.wav")
        (u "beginner") (u "user-1") None Sample.s0
      = (r, after_call (EvRemoveFile (u "/tmp/a.wav")) s1))
  /\ (whisper Sample.world (u "/tmp/a.wav") = None ->
      RAGPipeline.process_voice_query Sample.world (u "/tmp/a.wav")
        (u "beginner") (u "user-1") None Sample.s0
      = (Raised (ExternalError (EvTranscribe (u "/tmp/a.wav"))),
         after_call (EvRemoveFile (u "/tmp/a.wav"))
           (after_call (EvTranscribe (u "/tmp/a.wav")) Sample.s0))).
Proof.
  apply (X13_audio_file_always_removed Sample.world (u "/tmp/a.wav")
           (u "beginner") (u "user-1") None Sample.s0).
  reflexivity.
Defined.

(** X14. [initialize] never raises and marks the pipeline as initialized
    even when the vector store could not be opened; it tries to open
    the store only when the pipeline was not initialized yet, so calling
    it again does nothing and a failed opening is not retried by it. *)
Theorem X14_initialize_once (E : env) (s : state) :
  exists s1,
    RAGPipeline.initialize E s = (Returned tt, s1)
    /\ initialized s1 = true
    /\ trace s1
       = trace s ++ (if initialized s then [] else [EvOpenVectorstore])
    /\ vectorstore s1
       = (if initialized s then vectorstore s
          else match chroma_open E with
               | Some _ => true
               | None => vectorstore s
               end)
    /\ RAGPipeline.initialize E s1 = (Returned tt, s1).
Proof.
  rewrite initialize_run. eexists. split; [reflexivity|].
  destruct s as [ini vs tr]. destruct ini eqn:Hini; cbn.
  - repeat split; try reflexivity. rewrite app_nil_r. reflexivity.
  - repeat split; try reflexivity.
Qed.

(** X15. When the vector store is not open and cannot be opened,
    [process_query] raises the AttributeError of the missing store:
    it only tried to open the store (once more if the pipeline was not
    initialized yet), and made no search, scoring, generation,
    translation or database call. *)
Theorem X15_query_without_store_raises (E : env)
    (query_request : QueryRequest) (user_id : pystr) (s : state) :
  vectorstore s = false ->
  chroma_open E = None ->
  exists s',
    RAGPipeline.process_query E query_request user_id s
    = (Raised AttributeError, s')
    /\ trace s'
       = trace s
         ++ (if initialized s then [EvOpenVectorstore]
             else [EvOpenVectorstore; EvOpenVectorstore]).
Proof.
  intros Hvs Hopen. unfold RAGPipeline.process_query. rewrite run_reraise.
  unfold bind at 1. rewrite initialize_run.
  unfold bind at 1. unfold VectorStore.search_and_rerank.
  rewrite run_reraise. unfold bind at 1. rewrite similarity_search_run.
  destruct (initialized s) eqn:Hini.
  - rewrite Hvs, Hopen. eexists. split; reflexivity.
  - unfold opened. cbn [vectorstore trace initialized].
    rewrite Hopen, Hvs. eexists. split; [reflexivity|].
    cbn [trace]. rewrite <- app_assoc. reflexivity.
Qed.

Lemma X15_witness :
  exists s',
    RAGPipeline.process_query Sample2.closed_world
      (mkQueryRequest (u "What is karma?") (u "expert") None) (u "user-1")
      Sample.s0
    = (Raised AttributeError, s')
    /\ trace s'
       = trace Sample.s0
         ++ (if initialized Sample.s0 then [EvOpenVectorstore]
             else [EvOpenVectorstore; EvOpenVectorstore]).
Proof.
  apply (X15_query_without_store_raises Sample2.closed_world
           (mkQueryRequest (u "What is karma?") (u "expert") None)
           (u "user-1") Sample.s0); reflexivity.
Defined.

(** X16. When the store is open and the vector search itself raises,
    [search_and_rerank] raises that error without scoring anything, and
    so does [process_query] of an initialized pipeline: the failed
    search is the only call made. *)
Theorem X16_search_failure_aborts (E : env) (query_request : QueryRequest)
    (user_id : pystr) (s : state) :
  initialized s = true ->
  vectorstore s = true ->
  index_search E (qr_query query_request) Config.TOP_K_RETRIEVAL = None ->
  let ev :=
    EvSimilaritySearch (qr_query query_request) Config.TOP_K_RETRIEVAL in
  VectorStore.search_and_rerank E (qr_query query_request) s
  = (Raised (ExternalError ev), after_call ev s)
  /\ RAGPipeline.process_query E query_request user_id s
     = (Raised (ExternalError ev), after_call ev s).
Proof.
  intros Hinit Hvs Hfail ev.
  assert (Hsr : VectorStore.search_and_rerank E (qr_query query_request) s
                = (Raised (ExternalError ev), after_call ev s)).
  { unfold VectorStore.search_and_rerank. rewrite run_reraise.
    unfold bind at 1. rewrite similarity_search_run, Hvs, Hfail.
    rewrite run_call_none. reflexivity. }
  split; [exact Hsr|].
  unfold RAGPipeline.process_query. rewrite run_reraise.
  unfold bind at 1. rewrite initialize_run, Hinit.
  unfold bind at 1. rewrite Hsr. reflexivity.
Qed.

Lemma X16_witness :
  let ev := EvSimilaritySearch (u "What is karma?") Config.TOP_K_RETRIEVAL in
  VectorStore.search_and_rerank
    (Sample.with_index (fun _ _ => None) Sample.world)
    (u "What is karma?") Sample2.ready
  = (Raised (ExternalError ev), after_call ev Sample2.ready)
  /\ RAGPipeline.process_query
       (Sample.with_index (fun _ _ => None) Sample.world)
       (mkQueryRequest (u "What is karma?") (u "expert") None) (u "user-1")
       Sample2.ready
     = (Raised (ExternalError ev), after_call ev Sample2.ready).
Proof.
  apply (X16_search_failure_aborts
           (Sample.with_index (fun _ _ => None) Sample.world)
           (mkQueryRequest (u "What is karma?") (u "expert") None)
           (u "user-1") Sample2.ready); reflexivity.
Defined.

(** ** Citations, recommendations and the prompt *)

(** X17. The recommendations are empty exactly when no evidence item
    has a non-empty book_name: items without metadata, without the key
    or with an empty name contribute nothing (whatever the order in
    which sets are iterated). *)
Theorem X17_no_recommendation_without_book_name (E : env)
    (context_docs : list ranked) :
  set_iteration (list_of_set E) ->
  LLMService.get_book_recommendations E context_docs = []
  <-> (forall doc b,
          In doc context_docs ->
          metadata doc !! u "book_name" = Some b -> b = []).
Proof.
  intros Hset. unfold LLMService.get_book_recommendations.
  set (names := LLMService.book_names context_docs).
  destruct (Hset names) as [_ Hin].
  assert (Hnames : names = [] <->
                   forall doc b,
                     In doc context_docs ->
                     metadata doc !! u "book_name" = Some b -> b = []).
  { split.
    - intros Hnil doc b Hdoc Hb. destruct b as [|c b]; [reflexivity|].
      exfalso.
      assert (Hbn : In (c :: b) names).
      { apply book_names_In. exists doc. repeat split; [assumption.. | discriminate]. }
      rewrite Hnil in Hbn. destruct Hbn.
    - intros Hall. destruct names as [|b names'] eqn:Hn; [reflexivity|].
      assert (Hb : In b names) by (rewrite Hn; left; reflexivity).
      apply book_names_In in Hb as (doc & Hdoc & Hlook & Hne).
      destruct (Hne (Hall doc b Hdoc Hlook)). }
  rewrite <- Hnames.
  destruct context_docs as [|d docs]; [split; reflexivity|].
  split.
  - intros Hrecs. destruct names as [|b names'] eqn:Hn; [reflexivity|].
    assert (Hb : In b (list_of_set E (b :: names'))).
    { apply Hin. left. reflexivity. }
    destruct (list_of_set E (b :: names')); [destruct Hb | discriminate].
  - intros Hnil. rewrite Hnil.
    destruct (list_of_set E []) as [|x l] eqn:Hl; [reflexivity|].
    assert (Hx : In x (list_of_set E [])) by (rewrite Hl; left; reflexivity).
    rewrite Hnil in Hin. apply Hin in Hx. destruct Hx.
Qed.

Lemma X17_witness :
  LLMService.get_book_recommendations Sample.world evidence_with_repeat = []
  <-> (forall doc b,
          In doc evidence_with_repeat ->
          metadata doc !! u "book_name" = Some b -> b = []).
Proof.
  apply (X17_no_recommendation_without_book_name Sample.world
           evidence_with_repeat).
  apply remove_dups_set_iteration.
Defined.

(** X18. [extract_citations] gives one citation per evidence item, in
    the order of the evidence.  The book of a citation is the item's
    book_name, or 'Unknown Source' when the metadata has none; its
    content preview is the first 100 characters of the content followed
    by '...', the dots being appended also when the content is shorter
    than 100 characters. *)
Theorem X18_one_citation_per_evidence (context_docs : list ranked) :
  length (LLMService.extract_citations context_docs) = length context_docs
  /\ forall i doc,
       context_docs !! i = Some doc ->
       exists c,
         LLMService.extract_citations context_docs !! i = Some c
         /\ cit_book c
            = match metadata doc !! u "book_name" with
              | Some b => b
              | None => u "Unknown Source"
              end
         /\ (exists rest,
                content doc
                = firstn (length (cit_content_preview c) - 3)
                    (cit_content_preview c) ++ rest)
         /\ skipn (length (cit_content_preview c) - 3)
              (cit_content_preview c) = u "..."
         /\ length (cit_content_preview c)
            = Nat.min 100 (length (content doc)) + 3.
Proof.
  unfold LLMService.extract_citations. split; [apply length_map|].
  intros i doc Hi. eexists. split.
  { change (@List.map ranked citation) with (@fmap list _ ranked citation).
    rewrite list_lookup_fmap, Hi. reflexivity. }
  cbn [cit_book cit_content_preview].
  assert (Hlen : length (firstn 100 (content doc) ++ u "...") - 3
                 = length (firstn 100 (content doc))).
  { rewrite length_app. change (length (u "...")) with 3. lia. }
  split; [reflexivity|]. rewrite Hlen. split; [|split].
  - exists (skipn 100 (content doc)).
    rewrite take_app_length. symmetry. apply firstn_skipn.
  - rewrite drop_app_length. reflexivity.
  - rewrite length_app, length_take. reflexivity.
Qed.

Lemma occurs_in_join sep w ws : In w ws -> occurs_in w (join sep ws).
Proof.
  induction ws as [|x ws IH]; [intros []|].
  intros Hin. destruct ws as [|y ws].
  - destruct Hin as [-> | []]. exists [], []. cbn. rewrite app_nil_r.
    reflexivity.
  - rewrite join_cons by discriminate. destruct Hin as [-> | Hin].
    + exists [], (sep ++ join sep (y :: ws)). reflexivity.
    + destruct (IH Hin) as (l & r & ->).
      exists (x ++ sep ++ l), r. rewrite <- !app_assoc. reflexivity.
Qed.

Lemma occurs_in_trans a b c : occurs_in a b -> occurs_in b c -> occurs_in a c.
Proof.
  intros (l1 & r1 & ->) (l2 & r2 & ->).
  exists (l2 ++ l1), (r1 ++ r2). rewrite <- !app_assoc. reflexivity.
Qed.

Lemma occurs_in_suffix a l : occurs_in a (l ++ a).
Proof. exists l, []. rewrite app_nil_r. reflexivity. Qed.

(** X19. In both variants the prompt is grounded in the evidence and
    carries the question: for every mode, [create_prompt] returns a
    prompt in which the query occurs and in which, for every evidence
    item, its source line and content block, and so its content,
    occur. *)
Theorem X19_prompt_carries_query_and_evidence (query : pystr)
    (context_docs : list ranked) (mode : pystr) :
  exists prompt,
    LLMService.create_prompt query context_docs mode = Returned prompt
    /\ occurs_in query prompt
    /\ forall doc,
         In doc context_docs ->
         occurs_in (LLMService.source_block doc) prompt
         /\ occurs_in (content doc) prompt.
Proof.
  unfold LLMService.create_prompt.
  set (context_text :=
         join [nl; nl] (List.map LLMService.source_block context_docs)).
  assert (Hblock : forall doc,
             In doc context_docs ->
             occurs_in (LLMService.source_block doc) context_text
             /\ occurs_in (content doc) context_text).
  { intros doc Hdoc.
    assert (H : occurs_in (LLMService.source_block doc) context_text).
    { apply occurs_in_join, in_map, Hdoc. }
    split; [exact H|]. eapply occurs_in_trans; [|exact H].
    unfold LLMService.source_block. rewrite !app_assoc.
    apply occurs_in_suffix. }
  destruct (pystr_eqb mode (u "beginner")); eexists; (split; [reflexivity|]).
  - unfold LLMService.beginner_prompt. split.
    + eapply occurs_in_trans; [apply occurs_in_suffix|].
      apply occurs_in_join. do 9 right. left. reflexivity.
    + intros doc Hdoc. destruct (Hblock doc Hdoc) as [H1 H2].
      split; (eapply occurs_in_trans; [eassumption|]);
        apply occurs_in_join; do 7 right; left; reflexivity.
  - unfold LLMService.expert_prompt. split.
    + eapply occurs_in_trans; [apply occurs_in_suffix|].
      apply occurs_in_join. do 9 right. left. reflexivity.
    + intros doc Hdoc. destruct (Hblock doc Hdoc) as [H1 H2].
      split; (eapply occurs_in_trans; [eassumption|]);
        apply occurs_in_join; do 7 right; left; reflexivity.
Qed.

(** X20. A voice query whose transcription is not blank is the text
    query of that transcription: after the transcription call,
    [process_voice_query] runs [process_query] on the transcribed text
    as it came (not stripped), with the mode and session id it was
    given, hands back its outcome, value or error, and removes the
    audio file if it exists. *)
Theorem X20_voice_query_is_text_query (E : env)
    (audio_file_path mode user_id : pystr) (sid : option pystr) (s : state)
    (query_text : pystr) :
  whisper E audio_file_path = Some query_text ->
  strip query_text <> [] ->
  RAGPipeline.process_voice_query E audio_file_path mode user_id sid s
  = (let (r, s1) :=
       RAGPipeline.process_query E (mkQueryRequest query_text mode sid)
         user_id (after_call (EvTranscribe audio_file_path) s) in
     (r, if path_exists E audio_file_path
         then after_call (EvRemoveFile audio_file_path) s1
         else s1)).
Proof.
  intros Hw Hne.
  unfold RAGPipeline.process_voice_query, try_finally, bind at 1.
  unfold LLMService.transcribe_audio. rewrite run_reraise, Hw, run_call_some.
  destruct (strip query_text) as [|c r]; [congruence|].
  fold (after_call (EvTranscribe audio_file_path) s).
  destruct (RAGPipeline.process_query E (mkQueryRequest query_text mode sid)
              user_id (after_call (EvTranscribe audio_file_path) s))
    as [r1 s1].
  unfold RAGPipeline.remove_audio_file.
  destruct (path_exists E audio_file_path); reflexivity.
Qed.

Lemma X20_witness :
  RAGPipeline.process_voice_query Sample2.hearing_world
    (u "/tmp/a.wav") (u "expert") (u "user-1") None Sample.s0
  = (let (r, s1) :=
       RAGPipeline.process_query Sample2.hearing_world
         (mkQueryRequest (u "What is karma?") (u "expert") None)
         (u "user-1") (after_call (EvTranscribe (u "/tmp/a.wav")) Sample.s0) in
     (r, if path_exists Sample2.hearing_world (u "/tmp/a.wav")
         then after_call (EvRemoveFile (u "/tmp/a.wav")) s1
         else s1)).
Proof.
  apply (X20_voice_query_is_text_query Sample2.hearing_world
           (u "/tmp/a.wav") (u "expert") (u "user-1") None Sample.s0
           (u "What is karma?")).
  - reflexivity.
  - vm_compute. discriminate.
Defined.
